(** * MarsPro cloud client: value codec, catalog refresh and controllers

    A shallow embedding of [custom_components/marshydro/api.py] and
    [custom_components/marshydro/config_flow.py].

    Python values that come out of [json.loads] or out of a decoded HTTP
    response are modelled by the inductive type [value]; Python floats are
    IEEE binary64 numbers, modelled with the Standard Library's [spec_float]
    at precision 53; exceptions are modelled by the [outcome] type. *)

From Stdlib Require Import ZArith Ascii String List Bool Lia.
From Stdlib Require Import Floats.SpecFloat.
From stdpp Require Import base option list gmap.

Local Open Scope string_scope.
Local Open Scope list_scope.
Local Open Scope Z_scope.

(** ** Python values and exceptions *)

#[warnings="-register-all"]
Inductive value : Type :=
| VNone
| VBool (b : bool)
| VInt (z : Z)
| VFloat (f : spec_float)
| VStr (s : string)
| VList (l : list value)
| VDict (d : list (string * value)).

(** The exception classes that the embedded code can meet.  Each is a
    subclass of [Exception], so a handler [except Exception] (or a bare
    [except]) catches every one of them. *)
Inductive exn : Type :=
| AttributeError
| TypeError
| ValueError
| OverflowError
| ZeroDivisionError
| JSONDecodeError
| ClientError
| InvalidAuth
| CannotConnect.

Inductive outcome (A : Type) : Type :=
| Ret (a : A)
| Raise (e : exn).
Arguments Ret {A} a.
Arguments Raise {A} e.

Definition obind {A B} (m : outcome A) (k : A -> outcome B) : outcome B :=
  match m with
  | Ret a => k a
  | Raise e => Raise e
  end.

(** [try: m except Exception: return d] *)
Definition try_except {A} (m : outcome A) (d : A) : A :=
  match m with
  | Ret a => a
  | Raise _ => d
  end.

Declare Scope py_scope.
Delimit Scope py_scope with py.
Notation "'let!' x ':=' m 'in' k" := (obind m (fun x => k))
  (at level 10, x name, m at level 100, k at level 200) : py_scope.
Local Open Scope py_scope.

(** ** Dictionaries *)

(** A Python [dict] with string keys, as an association list in which the
    first binding of a key is the live one. *)
Fixpoint dict_lookup (k : string) (d : list (string * value)) : option value :=
  match d with
  | [] => None
  | (k', v) :: d' => if String.eqb k k' then Some v else dict_lookup k d'
  end.

(** [d.get(k, dflt)] on a dictionary *)
Definition dict_get (d : list (string * value)) (k : string) (dflt : value) : value :=
  match dict_lookup k d with
  | Some v => v
  | None => dflt
  end.

(** [v.get(k, dflt)] on an arbitrary value: only [dict] has the method *)
Definition py_get (v : value) (k : string) (dflt : value) : outcome value :=
  match v with
  | VDict d => Ret (dict_get d k dflt)
  | _ => Raise AttributeError
  end.

(** ** Binary64 arithmetic *)

Definition prec : Z := 53.
Definition emax : Z := 1024.

Definition float_of_Z (z : Z) : spec_float := binary_normalize prec emax z 0 false.

(** Conversion of an [int] operand to [float]: too large an integer raises
    [OverflowError]. *)
Definition int_to_float (z : Z) : outcome spec_float :=
  match float_of_Z z with
  | S754_infinity _ => Raise OverflowError
  | f => Ret f
  end.

(** The literal [8.4]: the binary64 number nearest to 84/10. *)
Definition lit_8_4 : spec_float := S754_finite false 4728779608739021 (-49).

Definition is_zero_float (f : spec_float) : bool :=
  match f with
  | S754_zero _ => true
  | _ => false
  end.

(** [a / b] on two floats *)
Definition float_truediv (a b : spec_float) : outcome spec_float :=
  if is_zero_float b then Raise ZeroDivisionError else Ret (SFdiv prec emax a b).

(** [a / b] on two ints: the correctly rounded quotient, [OverflowError]
    when it is too large for a float. *)
Definition int_truediv (a b : Z) : outcome spec_float :=
  match a, b with
  | _, Z0 => Raise ZeroDivisionError
  | Z0, _ => Ret (S754_zero (Z.ltb b 0))
  | _, _ =>
      match SFdiv prec emax (S754_finite (Z.ltb a 0) (Z.to_pos (Z.abs a)) 0)
                           (S754_finite (Z.ltb b 0) (Z.to_pos (Z.abs b)) 0) with
      | S754_infinity _ => Raise OverflowError
      | f => Ret f
      end
  end.

(** [int(f)] on a float: truncation toward zero *)
Definition int_of_float (f : spec_float) : outcome Z :=
  match f with
  | S754_nan => Raise ValueError
  | S754_infinity _ => Raise OverflowError
  | S754_zero _ => Ret 0
  | S754_finite s m e =>
      let a := match e with
               | Zneg p => Z.shiftr (Zpos m) (Zpos p)
               | _ => Z.shiftl (Zpos m) e
               end in
      Ret (if s then - a else a)
  end.

(** ** Operators on values *)

Fixpoint repeat_string (n : nat) (s : string) : string :=
  match n with
  | O => EmptyString
  | S n' => String.append s (repeat_string n' s)
  end.

Fixpoint repeat_list {A} (n : nat) (l : list A) : list A :=
  match n with
  | O => []
  | S n' => l ++ repeat_list n' l
  end.

(** [v * n] with an [int] right operand *)
Definition py_mul_int (v : value) (n : Z) : outcome value :=
  match v with
  | VInt z => Ret (VInt (z * n))
  | VBool b => Ret (VInt (Z.b2z b * n))
  | VFloat f => Ret (VFloat (SFmul prec emax f (float_of_Z n)))
  | VStr s => Ret (VStr (repeat_string (Z.to_nat n) s))
  | VList l => Ret (VList (repeat_list (Z.to_nat n) l))
  | VNone | VDict _ => Raise TypeError
  end.

(** [v / n] with an [int] right operand *)
Definition py_truediv_int (v : value) (n : Z) : outcome spec_float :=
  match v with
  | VInt z => int_truediv z n
  | VBool b => int_truediv (Z.b2z b) n
  | VFloat f => float_truediv f (float_of_Z n)
  | _ => Raise TypeError
  end.

(** [v / x] with a [float] right operand *)
Definition py_truediv_float (v : value) (x : spec_float) : outcome spec_float :=
  match v with
  | VInt z => let! f := int_to_float z in float_truediv f x
  | VBool b => float_truediv (float_of_Z (Z.b2z b)) x
  | VFloat f => float_truediv f x
  | _ => Raise TypeError
  end.

(** [v == n] with an [int] right operand; comparison for equality never
    raises. *)
Definition py_eq_int (v : value) (n : Z) : bool :=
  match v with
  | VInt z => Z.eqb z n
  | VBool b => Z.eqb (Z.b2z b) n
  | VFloat f => SFeqb f (float_of_Z n)
  | _ => false
  end.

(** [v == s] with a [str] right operand *)
Definition py_eq_str (v : value) (s : string) : bool :=
  match v with
  | VStr s' => String.eqb s' s
  | _ => false
  end.

(** [v > n] with an [int] right operand *)
Definition py_gt_int (v : value) (n : Z) : outcome bool :=
  match v with
  | VInt z => Ret (Z.gtb z n)
  | VBool b => Ret (Z.gtb (Z.b2z b) n)
  | VFloat f => Ret (SFltb (float_of_Z n) f)
  | _ => Raise TypeError
  end.

(** Truth value of an object *)
Definition truthy (v : value) : bool :=
  match v with
  | VNone => false
  | VBool b => b
  | VInt z => negb (Z.eqb z 0)
  | VFloat f => negb (is_zero_float f)
  | VStr s => negb (String.eqb s EmptyString)
  | VList l => match l with [] => false | _ => true end
  | VDict d => match d with [] => false | _ => true end
  end.

(** ** Entities *)

(** What [MarsProFan.__init__] and [MarsProLight.__init__] keep of a device
    record: its id and the record itself. *)
Record entity : Type := {
  _device_id : value;
  _device_data : list (string * value)
}.

Section Codec.

(** [json.loads] on a [str]: [None] when it raises. *)
Variable json_loads : string -> option value.

(** [json.loads(v)] on an arbitrary value *)
Definition py_json_loads (v : value) : outcome value :=
  match v with
  | VStr s =>
      match json_loads s with
      | Some j => Ret j
      | None => Raise JSONDecodeError
      end
  | _ => Raise TypeError
  end.

(** [self._device_data.get("deviceInfo", "{}")] *)
Definition device_info (e : entity) : value :=
  dict_get (_device_data e) "deviceInfo" (VStr "{}").

(** *** MarsProFan *)

(** Lines 265-267 of [MarsProFan.percentage], on the decoded [fanSpeed] *)
Definition fan_speed_to_percentage (fan_speed : value) : outcome value :=
  if py_eq_int fan_speed 0 then Ret (VInt 0)
  else
    let! q := py_truediv_float fan_speed lit_8_4 in
    let! n := int_of_float q in
    Ret (VInt (Z.min (Z.max n 25) 100)).

Definition percentage (e : entity) : value :=
  try_except
    (let! info_dict := py_json_loads (device_info e) in
     let! fan_speed := py_get info_dict "fanSpeed" (VInt 0) in
     fan_speed_to_percentage fan_speed)
    VNone.

(** *** MarsProLight *)

(** Line 339 of [MarsProLight.brightness], on the decoded [lastBright] *)
Definition last_bright_to_brightness (last_bright : value) : outcome value :=
  let! p := py_mul_int last_bright 255 in
  let! q := py_truediv_int p 100 in
  let! n := int_of_float q in
  Ret (VInt (Z.min (Z.max n 0) 255)).

Definition brightness (e : entity) : value :=
  try_except
    (let! info_dict := py_json_loads (device_info e) in
     let! last_bright := py_get info_dict "lastBright" (VInt 0) in
     last_bright_to_brightness last_bright)
    VNone.

Definition is_on (e : entity) : outcome bool :=
  py_gt_int (brightness e) 0.

(** [self._device_data.get("connectStatus") == 1] *)
Definition available (e : entity) : bool :=
  py_eq_int (dict_get (_device_data e) "connectStatus" VNone) 1.

(** Line 370 of [MarsProLight.async_turn_on]:
    [int(brightness * 100 / 255)] on the host's brightness *)
Definition brightness_to_percentage (b : Z) : outcome value :=
  let! q := int_truediv (b * 100) 255 in
  let! n := int_of_float q in
  Ret (VInt n).

(** Lines 373-378 of [MarsProLight.async_turn_on]: the last brightness, or
    50 when the payload does not decode *)
Definition last_brightness_percentage (e : entity) : value :=
  try_except
    (let! info_dict := py_json_loads (device_info e) in
     py_get info_dict "lastBright" (VInt 50))
    (VInt 50).

End Codec.



(** ** The remote service *)

(** Device product groups *)
Definition PRODUCT_GROUP_LIGHT : Z := 1.
Definition PRODUCT_GROUP_FAN : Z := 2.
Definition PRODUCT_GROUP_OTHER : list Z := [3; 6; 7].

Definition base_url : string := "https://mars-pro.api.lgledsolutions.com/api/".

(** What [_api_request] hands to the HTTP session.  The [systemdata] header
    carries a request id drawn with [random.randint]; it is part of the
    world's step and is not recorded here. *)
Record request : Type := {
  url : string;
  http_method : string;
  json_body : option value
}.

(** What comes back: the session call raises ([Refused]), or it returns a
    response whose [json()] either raises ([Answer None]) or yields a
    decoded body. *)
Inductive reply : Type :=
| Refused
| Answer (body : option value).

(** Observable effects, in program order. *)
Inductive event : Type :=
| EvExchange (req : request) (rep : reply)
| EvLogError (what : string)
| EvLogFanSpeed (device_id : value) (speed_percentage : Z) (cfm pa : value)
| EvLogBrightness (device_id : value) (brightness_percentage : value)
| EvRequestRefresh.

(** Results of the configuration flow's user step *)
Inductive flow_result : Type :=
| CreateEntry (title : string)
| ShowForm (base_error : option string).

Record user_input : Type := {
  CONF_USERNAME : string;
  CONF_PASSWORD : string;
  CONF_NAME : string
}.

Section Client.

(** [json.loads], as in [Codec] *)
Variable json_loads : string -> option value.

(** The HTTP session and the service behind it: a state [W] and its
    reaction to a request. *)
Context {W : Type}.
Variable send : request -> W -> reply * W.

(** The client's state: the world, and the [user_info] attribute of the
    [MarsProApi] object. *)
Record state : Type := {
  world : W;
  user_info : value
}.

(** Coroutines: state passing, exceptions, and the events emitted. *)
Definition M (A : Type) : Type := state -> outcome A * state * list event.

Definition mret {A} (a : A) : M A := fun st => (Ret a, st, []).

Definition mbind {A B} (m : M A) (k : A -> M B) : M B :=
  fun st =>
    match m st with
    | (Ret a, st1, ev1) =>
        match k a st1 with
        | (r, st2, ev2) => (r, st2, ev1 ++ ev2)
        end
    | (Raise e, st1, ev1) => (Raise e, st1, ev1)
    end.

Definition lift {A} (o : outcome A) : M A := fun st => (o, st, []).

Definition emit (e : event) : M unit := fun st => (Ret tt, st, [e]).

(** [try: m except Exception as e: h e] *)
Definition mcatch {A} (m : M A) (h : exn -> M A) : M A :=
  fun st =>
    match m st with
    | (Raise e, st1, ev1) =>
        match h e st1 with
        | (r, st2, ev2) => (r, st2, ev1 ++ ev2)
        end
    | x => x
    end.

Definition exchange (req : request) : M reply :=
  fun st =>
    match send req (world st) with
    | (rep, w) => (Ret rep, {| world := w; user_info := user_info st |}, [EvExchange req rep])
    end.

Definition set_user_info (v : value) : M unit :=
  fun st => (Ret tt, {| world := world st; user_info := v |}, []).

Notation "'let*' x ':=' m 'in' k" := (mbind m (fun x => k))
  (at level 10, x name, m at level 100, k at level 200).
Notation "m ';;' k" := (mbind m (fun _ => k))
  (at level 100, k at level 200, right associativity).

(** *** MarsProApi *)

(** [await self._session.post(...)] / [.get(...)], then
    [await response.json()] *)
Definition session_json (req : request) : M value :=
  let* rep := exchange req in
  match rep with
  | Refused => lift (Raise ClientError)
  | Answer None => lift (Raise JSONDecodeError)
  | Answer (Some j) => mret j
  end.

Definition _api_request (endpoint method : string) (data : value) : M value :=
  let req :=
    if String.eqb method "POST"
    then {| url := String.append base_url endpoint; http_method := method;
            json_body := Some (if truthy data then data else VDict []) |}
    else {| url := String.append base_url endpoint; http_method := "GET";
            json_body := None |} in
  mcatch
    (let* response_json := session_json req in
     let* code := lift (py_get response_json "code" VNone) in
     if negb (py_eq_str code "000") then
       let* msg := lift (py_get response_json "msg" VNone) in
       emit (EvLogError "API error") ;;
       mret VNone
     else mret response_json)
    (fun _ => emit (EvLogError "API request error") ;; mret VNone).

(** The test [response and response.get("code") == "000"] *)
Definition has_code_000 (response : value) : outcome bool :=
  if truthy response then
    let! code := py_get response "code" VNone in
    Ret (py_eq_str code "000")
  else Ret false.

Definition login : M bool :=
  let* response := _api_request "android/mine/info/v1" "POST" VNone in
  let* ok := lift (has_code_000 response) in
  if ok then
    let* data := lift (py_get response "data" VNone) in
    set_user_info data ;;
    mret true
  else mret false.

Definition list_payload (group : Z) : value :=
  VDict [("currentPage", VInt 1); ("type", VNone); ("deviceProductGroup", VInt group)].

Definition list_request (group : Z) : request :=
  {| url := String.append base_url "android/udm/getDeviceList/v1"; http_method := "POST";
     json_body := Some (list_payload group) |}.

(** [response.get("data", {}).get("list", dflt)] *)
Definition data_list (response dflt : value) : outcome value :=
  let! data := py_get response "data" (VDict []) in
  py_get data "list" dflt.

(** Lines 159-160 and 165-166 of [update_data]: the Light and the Fan
    group are recorded whenever their request succeeded *)
Definition record_group (group : Z) (group_data : value) (result : gmap Z value)
  : outcome (gmap Z value) :=
  let! ok := has_code_000 group_data in
  if ok then
    let! l := data_list group_data (VList []) in
    Ret (<[group := l]> result)
  else Ret result.

(** Lines 172-173 of [update_data]: another group is recorded when its
    request succeeded and its list is true *)
Definition record_other (group_id : Z) (other_data : value) (result : gmap Z value)
  : outcome (gmap Z value) :=
  let! ok := has_code_000 other_data in
  if ok then
    let! l0 := data_list other_data VNone in
    if truthy l0 then
      let! l := data_list other_data (VList []) in
      Ret (<[group_id := l]> result)
    else Ret result
  else Ret result.

Definition fetch_group (group : Z) (result : gmap Z value) : M (gmap Z value) :=
  let* group_data := _api_request "android/udm/getDeviceList/v1" "POST" (list_payload group) in
  lift (record_group group group_data result).

(** The loop of lines 169-173 *)
Fixpoint fetch_others (groups : list Z) (result : gmap Z value) : M (gmap Z value) :=
  match groups with
  | [] => mret result
  | group_id :: rest =>
      let* other_data := _api_request "android/udm/getDeviceList/v1" "POST" (list_payload group_id) in
      let* result' := lift (record_other group_id other_data result) in
      fetch_others rest result'
  end.

Definition update_data : M (gmap Z value) :=
  let* result := fetch_group PRODUCT_GROUP_LIGHT ∅ in
  let* result := fetch_group PRODUCT_GROUP_FAN result in
  fetch_others PRODUCT_GROUP_OTHER result.

Definition get_device_detail (device_id : value) : M value :=
  let* response :=
    _api_request "android/udm/getDeviceDetail/v1" "POST"
      (VDict [("deviceId", device_id)]) in
  let* ok := lift (has_code_000 response) in
  if ok then lift (py_get response "data" VNone) else mret VNone.

Definition calculate_payload (device_id : value) (calculation : string) (speed_percentage : Z) : value :=
  VDict [("deviceId", device_id);
         ("productCode", VStr "24");
         ("calculationName", VStr calculation);
         ("argsList", VList [VDict [("argName", VStr "windPercent");
                                    ("argValue", VInt speed_percentage)]])].

Definition calculate_request (device_id : value) (calculation : string) (speed_percentage : Z) : request :=
  {| url := String.append base_url "h5/product/getCalculateSum/v1"; http_method := "POST";
     json_body := Some (calculate_payload device_id calculation speed_percentage) |}.

Definition set_fan_speed (device_id : value) (speed_percentage : Z) : M bool :=
  let* cfm_response :=
    _api_request "h5/product/getCalculateSum/v1" "POST"
      (calculate_payload device_id "cfmCalculation" speed_percentage) in
  let* pa_response :=
    _api_request "h5/product/getCalculateSum/v1" "POST"
      (calculate_payload device_id "paCalculation" speed_percentage) in
  let* cfm := lift (py_get cfm_response "data" VNone) in
  let* pa := lift (py_get pa_response "data" VNone) in
  emit (EvLogFanSpeed device_id speed_percentage cfm pa) ;;
  mret true.

Definition set_light_brightness (device_id : value) (brightness_percentage : value) : M bool :=
  emit (EvLogBrightness device_id brightness_percentage) ;;
  mret true.

(** [await self.coordinator.async_request_refresh()] *)
Definition async_request_refresh : M unit := emit EvRequestRefresh.

(** *** MarsProFan *)

(** The host passes the percentage as an [int] or as [None], on which
    [int(percentage)] is the identity. *)
Definition async_set_percentage (e : entity) (percentage : option Z) : M unit :=
  let percentage := match percentage with None => 0 | Some p => p end in
  let percentage := Z.min (Z.max percentage 25) 100 in
  let* result := set_fan_speed (_device_id e) percentage in
  if result then async_request_refresh else mret tt.

Definition fan_async_turn_on (e : entity) (percentage : option Z) : M unit :=
  match percentage with
  | Some p => async_set_percentage e (Some p)
  | None => async_set_percentage e (Some 25)
  end.

Definition fan_async_turn_off (e : entity) : M unit :=
  async_set_percentage e (Some 25).

(** *** MarsProLight *)

Definition light_async_turn_on (e : entity) (ATTR_BRIGHTNESS : option Z) : M unit :=
  let* brightness_percentage :=
    match ATTR_BRIGHTNESS with
    | Some b => lift (brightness_to_percentage b)
    | None => mret (last_brightness_percentage json_loads e)
    end in
  let* result := set_light_brightness (_device_id e) brightness_percentage in
  if result then async_request_refresh else mret tt.

Definition light_async_turn_off (e : entity) : M unit :=
  let* result := set_light_brightness (_device_id e) (VInt 0) in
  if result then async_request_refresh else mret tt.

(** *** The configuration flow *)

(** [validate_input]; the client object is created anew, with no
    [user_info]. *)
Definition validate_input (data : user_input) : M string :=
  set_user_info VNone ;;
  mcatch
    (let* result := login in
     if negb result then lift (Raise InvalidAuth) else mret tt)
    (fun _ => emit (EvLogError "Connection error") ;; lift (Raise CannotConnect)) ;;
  mret (CONF_NAME data).

Definition async_step_user (input : option user_input) : M flow_result :=
  match input with
  | Some data =>
      mcatch
        (let* title := validate_input data in
         mret (CreateEntry title))
        (fun e =>
           match e with
           | CannotConnect => mret (ShowForm (Some "cannot_connect"))
           | InvalidAuth => mret (ShowForm (Some "invalid_auth"))
           | _ => emit (EvLogError "Unexpected exception") ;;
                  mret (ShowForm (Some "unknown"))
           end)
  | None => mret (ShowForm None)
  end.

End Client.

Arguments world {W} s.
Arguments user_info {W} s.

(** ** Setting up the platform *)

Inductive platform_entity : Type :=
| Light (e : entity)
| Fan (e : entity).

(** [MarsProFan.__init__] and [MarsProLight.__init__]: the record must be an
    object that has the keys ["id"] and ["deviceName"]; otherwise the
    subscription raises ([KeyError] for a missing key, [TypeError] for a
    record that is not an object) and there is no entity.  The display
    name that the constructor formats is not kept. *)
Definition entity_init (device_data : value) : option entity :=
  match device_data with
  | VDict d =>
      match dict_lookup "id" d, dict_lookup "deviceName" d with
      | Some id, Some _ => Some {| _device_id := id; _device_data := d |}
      | _, _ => None
      end
  | _ => None
  end.

Fixpoint characters (s : string) : list value :=
  match s with
  | EmptyString => []
  | String c s' => VStr (String c EmptyString) :: characters s'
  end.

(** [for device in devices]: what the loop runs over, [None] when the
    value is not iterable ([TypeError]) *)
Definition py_iter (devices : value) : option (list value) :=
  match devices with
  | VList l => Some l
  | VDict d => Some (map (fun kv => VStr (fst kv)) d)
  | VStr s => Some (characters s)
  | _ => None
  end.

(** Lines 94-98 of [async_setup_platform]: the loop over the devices of
    one group *)
Fixpoint add_devices (device_group : Z) (devices : list value)
    (entities : list platform_entity) : option (list platform_entity) :=
  match devices with
  | [] => Some entities
  | device :: rest =>
      if device_group =? PRODUCT_GROUP_LIGHT then
        match entity_init device with
        | Some e => add_devices device_group rest (entities ++ [Light e])
        | None => None
        end
      else if device_group =? PRODUCT_GROUP_FAN then
        match entity_init device with
        | Some e => add_devices device_group rest (entities ++ [Fan e])
        | None => None
        end
      else add_devices device_group rest entities
  end.

(** Lines 93-98 of [async_setup_platform]: the loop over the items of
    [coordinator.data], a dictionary *)
Fixpoint add_groups (items : list (Z * value))
    (entities : list platform_entity) : option (list platform_entity) :=
  match items with
  | [] => Some entities
  | (device_group, devices) :: rest =>
      match py_iter devices with
      | Some l =>
          match add_devices device_group l entities with
          | Some entities' => add_groups rest entities'
          | None => None
          end
      | None => None
      end
  end.

(** Lines 92-98 of [async_setup_platform] *)
Definition create_entities (items : list (Z * value)) : option (list platform_entity) :=
  add_groups items [].

(** ** Reference formulas, as the specification words them *)

Definition clamp (x lo hi : Z) : Z := Z.min (Z.max x lo) hi.

(** [round(n / d)] on the exact quotient, for [0 < d]: to the nearest
    integer, a tie to the even one *)
Definition round_div (n d : Z) : Z :=
  let q := n / d in
  match 2 * (n mod d) ?= d with
  | Lt => q
  | Gt => q + 1
  | Eq => if Z.even q then q else q + 1
  end.

(** [0] if raw is [0], otherwise [clamp(round(raw / 8.4), 25, 100)] *)
Definition spec_fan_percentage (raw : Z) : Z :=
  if raw =? 0 then 0 else clamp (round_div (10 * raw) 84) 25 100.

(** [round(hostBrightness * 100 / 255)] *)
Definition spec_host_to_raw (h : Z) : Z := round_div (h * 100) 255.

(** [clamp(round(raw * 255 / 100), 0, 255)] *)
Definition spec_raw_to_host (raw : Z) : Z := clamp (round_div (raw * 255) 100) 0 255.

(** ** What the code computes, in integer arithmetic *)

(** [0] if raw is [0], otherwise the quotient by 8.4 truncated, clamped *)
Definition trunc_fan_percentage (raw : Z) : Z :=
  if raw =? 0 then 0 else clamp (10 * raw / 84) 25 100.

Definition trunc_host_to_raw (h : Z) : Z := h * 100 / 255.

Definition trunc_raw_to_host (raw : Z) : Z := clamp (raw * 255 / 100) 0 255.

(** ** Outcomes of a list request *)

(** What [_api_request] returns on a reply: the decoded body when it is an
    object whose [code] is ["000"], [None] otherwise. *)
Definition api_result (rep : reply) : value :=
  match rep with
  | Answer (Some (VDict d)) =>
      if py_eq_str (dict_get d "code" VNone) "000" then VDict d else VNone
  | _ => VNone
  end.

(** What [_api_request] logs on a reply *)
Definition api_logs (rep : reply) : list event :=
  match rep with
  | Answer (Some (VDict d)) =>
      if py_eq_str (dict_get d "code" VNone) "000" then [] else [EvLogError "API error"]
  | _ => [EvLogError "API request error"]
  end.

(** The request failed: no response comes back from [_api_request]. *)
Definition request_failed (rep : reply) : Prop := api_result rep = VNone.

(** The request succeeded and returned the list [l]: the body has code
    ["000"], and its [data], an object, holds [l] under [list] (the empty
    list when [data] or [list] is absent). *)
Definition request_listed (rep : reply) (l : value) : Prop :=
  exists d, api_result rep = VDict d /\ data_list (VDict d) (VList []) = Ret l.

(** The exchanges of a trace *)
Fixpoint exchanges (evs : list event) : list (request * reply) :=
  match evs with
  | [] => []
  | EvExchange req rep :: evs' => (req, rep) :: exchanges evs'
  | _ :: evs' => exchanges evs'
  end.

(** ** Sample instances *)

Definition dq : string := String "034"%char EmptyString.

(** [{"key": n}], as a document *)
Definition info_doc (key digits : string) : string :=
  String.append "{" (String.append dq (String.append key
    (String.append dq (String.append ": " (String.append digits "}"))))).

(** A decoder given by a table of documents; every other string is not
    valid JSON for it. *)
Fixpoint loads_table (t : list (string * value)) (s : string) : option value :=
  match t with
  | [] => None
  | (doc, v) :: t' => if String.eqb s doc then Some v else loads_table t' s
  end.

(** The table agrees with [json.loads] on its documents. *)
Definition sample_documents : list (string * value) :=
  [ ("{}", VDict []);
    (info_doc "fanSpeed" "420", VDict [("fanSpeed", VInt 420)]);
    (info_doc "fanSpeed" "215", VDict [("fanSpeed", VInt 215)]);
    (info_doc "lastBright" "50", VDict [("lastBright", VInt 50)]);
    (info_doc "lastBright" "1", VDict [("lastBright", VInt 1)]) ].

Definition sample_loads : string -> option value := loads_table sample_documents.

Definition sample_device (id : Z) (info : string) : entity :=
  {| _device_id := VInt id;
     _device_data := [("id", VInt id); ("deviceName", VStr "Tent");
                      ("connectStatus", VInt 1); ("deviceInfo", VStr info)] |}.

(** A scripted service: the replies are given out in order, and the
    connection is refused once the script has run out. *)
Definition scripted (req : request) (script : list reply) : reply * list reply :=
  match script with
  | [] => (Refused, [])
  | rep :: rest => (rep, rest)
  end.

Definition start (script : list reply) : state (W := list reply) :=
  {| world := script; user_info := VNone |}.

Definition ok_body (data : value) : reply :=
  Answer (Some (VDict [("code", VStr "000"); ("msg", VStr "success"); ("data", data)])).

Definition declined_body : reply :=
  Answer (Some (VDict [("code", VStr "401"); ("msg", VStr "declined")])).

(** A device record, as a list request returns it *)
Definition tent_light : value :=
  VDict [("id", VInt 3); ("deviceName", VStr "Tent");
         ("connectStatus", VInt 1); ("deviceInfo", VStr "{}")].

Definition sample_input : user_input :=
  {| CONF_USERNAME := "grower"; CONF_PASSWORD := "secret"; CONF_NAME := "MarsPro" |}.


(** ** Vocabulary of the properties *)

(** The payload of the device decodes to the object [info]. *)
Definition decodes_to (json_loads : string -> option value) (e : entity) (info : list (string * value)) : Prop :=
  py_json_loads json_loads (device_info e) = Ret (VDict info).

(** The payload of the device does not decode: [json.loads] raises. *)
Definition undecodable (json_loads : string -> option value) (e : entity) : Prop :=
  exists x, py_json_loads json_loads (device_info e) = Raise x.

Definition returns_int (o : outcome value) (n : Z) : bool :=
  match o with
  | Ret (VInt p) => p =? n
  | _ => false
  end.

Section Exchanges.

Context {W : Type}.
Variable send : request -> W -> reply * W.

(** The request that [_api_request] posts *)
Definition post_request (endpoint : string) (data : value) : request :=
  {| url := String.append base_url endpoint; http_method := "POST";
     json_body := Some (if truthy data then data else VDict []) |}.

(** The reply of the service to a request made in a state, and the state
    that the exchange leaves *)
Definition reply_to (req : request) (st : state) : reply :=
  fst (send req (world st)).

Definition after (req : request) (st : state) : state :=
  {| world := snd (send req (world st)); user_info := user_info st |}.

Definition login_request : request := post_request "android/mine/info/v1" VNone.

(** Every one of the other groups' requests fails or returns a list. *)
Fixpoint others_answer (groups : list Z) (st : state) : Prop :=
  match groups with
  | [] => True
  | g :: rest =>
      (request_failed (reply_to (list_request g) st) \/
       exists l, request_listed (reply_to (list_request g) st) l) /\
      others_answer rest (after (list_request g) st)
  end.

End Exchanges.

(** The value is neither a number nor a boolean. *)
Definition not_a_number (v : value) : Prop :=
  match v with
  | VNone | VStr _ | VList _ | VDict _ => True
  | VBool _ | VInt _ | VFloat _ => False
  end.

(** The value is not an object. *)
Definition not_an_object (v : value) : Prop :=
  match v with
  | VDict _ => False
  | _ => True
  end.

(** The devices of every item are a list. *)
Definition device_lists (items : list (Z * value)) : Prop :=
  forall g v, In (g, v) items -> exists l, v = VList l.


Section Cycles.

Context {W : Type}.
Variable send : request -> W -> reply * W.

(** Every request of the groups fails. *)
Fixpoint all_fail (groups : list Z) (st : state) : Prop :=
  match groups with
  | [] => True
  | g :: rest =>
      request_failed (reply_to send (list_request g) st) /\
      all_fail rest (after send (list_request g) st)
  end.

Definition detail_request (device_id : value) : request :=
  post_request "android/udm/getDeviceDetail/v1" (VDict [("deviceId", device_id)]).

End Cycles.

(** * Properties *)

(** ** Checking a property on an interval of integers *)

Lemma forallb_seqZ (P : Z -> bool) (lo len : Z) :
  forallb P (seqZ lo len) = true ->
  forall z, lo <= z < lo + len -> P z = true.
Proof.
  intros H z Hz.
  rewrite forallb_forall in H.
  apply H, list_elem_of_In, elem_of_seqZ.
  lia.
Qed.


Lemma returns_int_true (o : outcome value) (n : Z) :
  returns_int o n = true -> o = Ret (VInt n).
Proof.
  destruct o as [[| | p | | | |]|]; simpl; try discriminate.
  intros H. apply Z.eqb_eq in H. now subst.
Qed.

(** ** The codec on integers *)

(** The literal is the quotient of 84 by 10, rounded to binary64. *)
Example lit_8_4_nearest :
  SFdiv prec emax (float_of_Z 84) (float_of_Z 10) = lit_8_4.
Proof. reflexivity. Qed.

Lemma fan_speed_to_percentage_trunc (s : Z) :
  0 <= s <= 840 ->
  fan_speed_to_percentage (VInt s) = Ret (VInt (trunc_fan_percentage s)).
Proof.
  intros Hs. apply returns_int_true.
  apply (forallb_seqZ
           (fun z => returns_int (fan_speed_to_percentage (VInt z)) (trunc_fan_percentage z))
           0 841); [vm_compute; reflexivity | lia].
Qed.

Lemma last_bright_to_brightness_trunc (r : Z) :
  0 <= r <= 100 ->
  last_bright_to_brightness (VInt r) = Ret (VInt (trunc_raw_to_host r)).
Proof.
  intros Hr. apply returns_int_true.
  apply (forallb_seqZ
           (fun z => returns_int (last_bright_to_brightness (VInt z)) (trunc_raw_to_host z))
           0 101); [vm_compute; reflexivity | lia].
Qed.

Lemma brightness_to_percentage_trunc (h : Z) :
  0 <= h <= 255 ->
  brightness_to_percentage h = Ret (VInt (trunc_host_to_raw h)).
Proof.
  intros Hh. apply returns_int_true.
  apply (forallb_seqZ
           (fun z => returns_int (brightness_to_percentage z) (trunc_host_to_raw z))
           0 256); [vm_compute; reflexivity | lia].
Qed.


Lemma trunc_fan_percentage_range (s : Z) :
  trunc_fan_percentage s = 0 \/ 25 <= trunc_fan_percentage s <= 100.
Proof.
  unfold trunc_fan_percentage, clamp.
  destruct (s =? 0); [now left | right; lia].
Qed.


(** ** Decoding the packed payload *)

Section Decoding.

Variable json_loads : string -> option value.


Lemma percentage_decoded (e : entity) (info : list (string * value)) :
  decodes_to json_loads e info ->
  percentage json_loads e =
  try_except (fan_speed_to_percentage (dict_get info "fanSpeed" (VInt 0))) VNone.
Proof. unfold decodes_to, percentage. intros ->. reflexivity. Qed.

Lemma brightness_decoded (e : entity) (info : list (string * value)) :
  decodes_to json_loads e info ->
  brightness json_loads e =
  try_except (last_bright_to_brightness (dict_get info "lastBright" (VInt 0))) VNone.
Proof. unfold decodes_to, brightness. intros ->. reflexivity. Qed.

Lemma percentage_undecodable (e : entity) :
  undecodable json_loads e -> percentage json_loads e = VNone.
Proof. intros [x Hx]. unfold percentage. rewrite Hx. reflexivity. Qed.

Lemma brightness_undecodable (e : entity) :
  undecodable json_loads e -> brightness json_loads e = VNone.
Proof. intros [x Hx]. unfold brightness. rewrite Hx. reflexivity. Qed.

Lemma percentage_of_fan_speed (e : entity) (info : list (string * value)) (s : Z) :
  decodes_to json_loads e info ->
  dict_lookup "fanSpeed" info = Some (VInt s) ->
  0 <= s <= 840 ->
  percentage json_loads e = VInt (trunc_fan_percentage s).
Proof.
  intros Hdec Hget Hs.
  rewrite (percentage_decoded e info Hdec).
  unfold dict_get. rewrite Hget.
  now rewrite fan_speed_to_percentage_trunc.
Qed.

Lemma brightness_of_last_bright (e : entity) (info : list (string * value)) (r : Z) :
  decodes_to json_loads e info ->
  dict_lookup "lastBright" info = Some (VInt r) ->
  0 <= r <= 100 ->
  brightness json_loads e = VInt (trunc_raw_to_host r).
Proof.
  intros Hdec Hget Hr.
  rewrite (brightness_decoded e info Hdec).
  unfold dict_get. rewrite Hget.
  now rewrite last_bright_to_brightness_trunc.
Qed.

End Decoding.

Lemma sample_decodes (id : Z) (key digits : string) (v : value) :
  sample_loads (info_doc key digits) = Some (VDict [(key, v)]) ->
  decodes_to sample_loads (sample_device id (info_doc key digits)) [(key, v)].
Proof. intros H. unfold decodes_to. simpl. now rewrite H. Qed.

Lemma sample_undecodable (id : Z) :
  undecodable sample_loads (sample_device id "oops").
Proof. exists JSONDecodeError. reflexivity. Qed.

(** ** Running the client *)

Section Running.

Variable json_loads : string -> option value.
Context {W : Type}.
Variable send : request -> W -> reply * W.


Lemma api_request_run (endpoint : string) (data : value) (st : state) :
  let req := post_request endpoint data in
  _api_request send endpoint "POST" data st =
  (Ret (api_result (reply_to send req st)), after send req st,
   EvExchange req (reply_to send req st) :: api_logs (reply_to send req st)).
Proof.
  unfold _api_request, post_request, reply_to, after.
  unfold mcatch, mbind, session_json, exchange, mbind. simpl.
  destruct (send _ (world st)) as [rep w]. simpl.
  destruct rep as [|[j|]]; simpl; try reflexivity.
  destruct j; simpl; try reflexivity.
  unfold api_result, api_logs.
  destruct (py_eq_str (dict_get d "code" VNone) "000"); reflexivity.
Qed.

Lemma mbind_run {A B} (m : M (W:=W) A) (k : A -> M (W:=W) B) (st st1 : state) (a : A) (ev1 : list event) :
  m st = (Ret a, st1, ev1) ->
  mbind m k st =
  (fst (fst (k a st1)), snd (fst (k a st1)), ev1 ++ snd (k a st1)).
Proof.
  intros H. unfold mbind. rewrite H.
  destruct (k a st1) as [[r st2] ev2]. reflexivity.
Qed.

Lemma mbind_lift {A B} (o : outcome A) (k : A -> M (W:=W) B) (st : state) :
  mbind (lift o) k st =
  match o with
  | Ret a => k a st
  | Raise e => (Raise e, st, [])
  end.
Proof.
  unfold mbind, lift. destruct o as [a|e]; [|reflexivity].
  destruct (k a st) as [[r st2] ev2]. reflexivity.
Qed.

(** *** Responses *)

Lemma api_result_cases (rep : reply) :
  api_result rep = VNone \/ exists d, api_result rep = VDict d.
Proof.
  destruct rep as [|[[]|]]; simpl; auto.
  destruct (py_eq_str _ _); eauto.
Qed.

Lemma api_result_dict (rep : reply) (d : list (string * value)) :
  api_result rep = VDict d -> has_code_000 (VDict d) = Ret true.
Proof.
  destruct rep as [|[[]|]]; simpl; try discriminate.
  destruct (py_eq_str _ _) eqn:E; [|discriminate].
  intros [= <-].
  destruct d0 as [|kv d0]; [discriminate|].
  unfold has_code_000. simpl truthy. cbv iota. simpl py_get. simpl obind.
  now rewrite E.
Qed.

Lemma exchanges_app (ev1 ev2 : list event) :
  exchanges (ev1 ++ ev2) = exchanges ev1 ++ exchanges ev2.
Proof.
  induction ev1 as [|e ev1 IH]; [reflexivity|].
  destruct e; simpl; rewrite ?IH; reflexivity.
Qed.

Lemma exchanges_api_logs (rep : reply) : exchanges (api_logs rep) = [].
Proof.
  destruct rep as [|[[]|]]; simpl; try reflexivity.
  destruct (py_eq_str _ _); reflexivity.
Qed.

(** *** Logging in *)


Lemma login_run (st : state) :
  exists st' evs,
    login send st =
    (Ret (match api_result (reply_to send login_request st) with
          | VNone => false
          | _ => true
          end), st', evs).
Proof.
  unfold login.
  rewrite (mbind_run _ _ _ _ _ _ (api_request_run _ _ st)).
  fold login_request.
  destruct (api_result_cases (reply_to send login_request st)) as [E|[d E]]; rewrite E.
  - rewrite mbind_lift. simpl. eauto.
  - rewrite mbind_lift, (api_result_dict _ _ E).
    rewrite mbind_lift. simpl. eauto.
Qed.

Lemma validate_input_run (data : user_input) (st : state) :
  exists st' evs,
    validate_input send data st =
    (match api_result (reply_to send login_request st) with
     | VNone => Raise CannotConnect
     | _ => Ret (CONF_NAME data)
     end, st', evs).
Proof.
  destruct (login_run {| world := world st; user_info := VNone |}) as (st1 & ev1 & H).
  unfold validate_input, mbind at 1 2, mcatch at 1. simpl.
  unfold mbind at 1. rewrite H.
  assert (R : reply_to send login_request {| world := world st; user_info := VNone |}
              = reply_to send login_request st) by reflexivity.
  rewrite R.
  destruct (api_result (reply_to send login_request st)); simpl; eauto.
Qed.

Lemma async_step_user_run (data : user_input) (st : state) :
  exists st' evs,
    async_step_user send (Some data) st =
    (Ret (match api_result (reply_to send login_request st) with
          | VNone => ShowForm (Some "cannot_connect")
          | _ => CreateEntry (CONF_NAME data)
          end), st', evs).
Proof.
  destruct (validate_input_run data st) as (st1 & ev1 & H).
  unfold async_step_user, mcatch, mbind. rewrite H.
  destruct (api_result (reply_to send login_request st)); simpl; eauto.
Qed.

(** *** Commands *)

Lemma set_fan_speed_requests (device_id : value) (q : Z) (st : state) :
  map fst (exchanges (snd (set_fan_speed send device_id q st))) =
  [calculate_request device_id "cfmCalculation" q;
   calculate_request device_id "paCalculation" q].
Proof.
  unfold set_fan_speed.
  rewrite (mbind_run _ _ _ _ _ _ (api_request_run _ _ st)).
  rewrite (mbind_run _ _ _ _ _ _ (api_request_run _ _ _)).
  cbn [fst snd].
  repeat rewrite mbind_lift.
  set (r1 := api_result _). set (r2 := api_result _).
  destruct (py_get r1 "data" VNone); cbn [fst snd];
    [rewrite mbind_lift; destruct (py_get r2 "data" VNone)|];
    repeat (cbn [fst snd exchanges map app mbind emit mret];
            rewrite ?exchanges_app, ?exchanges_api_logs, ?app_nil_r);
    reflexivity.
Qed.

Lemma async_set_percentage_requests (e : entity) (p : option Z) (st : state) :
  map fst (exchanges (snd (async_set_percentage send e p st))) =
  (let q := clamp (match p with None => 0 | Some p => p end) 25 100 in
   [calculate_request (_device_id e) "cfmCalculation" q;
    calculate_request (_device_id e) "paCalculation" q]).
Proof.
  cbv zeta. rewrite <- (set_fan_speed_requests (_device_id e) _ st).
  unfold async_set_percentage, mbind, clamp.
  destruct (set_fan_speed send _ _ st) as [[[[]|] st1] ev1]; cbn;
    rewrite ?exchanges_app, ?app_nil_r; reflexivity.
Qed.

(** *** Refreshing the catalog *)

Lemma record_group_failed (g : Z) (rep : reply) (result : gmap Z value) :
  request_failed rep -> record_group g (api_result rep) result = Ret result.
Proof. unfold request_failed. intros ->. reflexivity. Qed.

Lemma record_group_listed (g : Z) (rep : reply) (l : value) (result : gmap Z value) :
  request_listed rep l ->
  record_group g (api_result rep) result = Ret (<[g := l]> result).
Proof.
  intros (d & E & Hl). rewrite E. unfold record_group.
  rewrite (api_result_dict _ _ E). simpl obind. now rewrite Hl.
Qed.

Lemma record_other_failed (g : Z) (rep : reply) (result : gmap Z value) :
  request_failed rep -> record_other g (api_result rep) result = Ret result.
Proof. unfold request_failed. intros ->. reflexivity. Qed.

(** With either default, [data_list] finds the same list or none. *)
Lemma data_list_defaults (response l : value) :
  data_list response (VList []) = Ret l ->
  exists l0, data_list response VNone = Ret l0 /\
             truthy l0 = truthy l /\ (truthy l = true -> l0 = l).
Proof.
  unfold data_list.
  destruct (py_get response "data" (VDict [])) as [data|]; [|discriminate].
  destruct data; simpl; try discriminate.
  unfold dict_get. destruct (dict_lookup "list" d) as [v|].
  - intros [= <-]. eauto.
  - intros [= <-]. exists VNone. simpl. repeat split. discriminate.
Qed.

Lemma record_other_listed (g : Z) (rep : reply) (l : value) (result : gmap Z value) :
  request_listed rep l ->
  record_other g (api_result rep) result =
  Ret (if truthy l then <[g := l]> result else result).
Proof.
  intros (d & E & Hl). rewrite E. unfold record_other.
  rewrite (api_result_dict _ _ E). simpl obind.
  destruct (data_list_defaults _ _ Hl) as (l0 & H0 & Ht & _).
  rewrite H0. simpl obind. rewrite Ht.
  destruct (truthy l); [|reflexivity].
  now rewrite Hl.
Qed.

(** Whatever [record_other] returns, it added at most the group's true list. *)
Lemma record_other_inv (g : Z) (rep : reply) (result result' : gmap Z value) :
  record_other g (api_result rep) result = Ret result' ->
  (result' = result /\ forall l, request_listed rep l -> truthy l = false) \/
  (exists l, result' = <[g := l]> result /\ request_listed rep l /\ truthy l = true).
Proof.
  destruct (api_result_cases rep) as [E|[d E]].
  - rewrite E. intros [= <-]. left. split; [reflexivity|].
    intros l (d & E' & _). congruence.
  - rewrite E. unfold record_other. rewrite (api_result_dict _ _ E). simpl obind.
    destruct (data_list (VDict d) VNone) as [l0|] eqn:H0; [|discriminate].
    simpl obind.
    destruct (truthy l0) eqn:Ht.
    + destruct (data_list (VDict d) (VList [])) as [l|] eqn:Hl; [|discriminate].
      simpl. intros [= <-]. right. exists l.
      destruct (data_list_defaults _ _ Hl) as (l0' & H0' & Ht' & _).
      assert (l0' = l0) by congruence. subst l0'.
      repeat split; [exists d; auto | congruence].
    + intros [= <-]. left. split; [reflexivity|].
      intros l (d' & E' & Hl). assert (d' = d) by congruence. subst d'.
      destruct (data_list_defaults _ _ Hl) as (l0' & H0' & Ht' & _).
      assert (l0' = l0) by congruence. subst l0'. congruence.
Qed.


Lemma list_request_post (g : Z) :
  post_request "android/udm/getDeviceList/v1" (list_payload g) = list_request g.
Proof. reflexivity. Qed.


Lemma fetch_group_run (g : Z) (result : gmap Z value) (st : state) :
  let rep := reply_to send (list_request g) st in
  fetch_group send g result st =
  (record_group g (api_result rep) result, after send (list_request g) st,
   EvExchange (list_request g) rep :: api_logs rep).
Proof.
  cbv zeta. unfold fetch_group.
  rewrite (mbind_run _ _ _ _ _ _ (api_request_run _ _ st)).
  rewrite list_request_post. unfold lift. cbn [fst snd].
  now rewrite app_nil_r.
Qed.

Lemma fetch_others_step (g : Z) (rest : list Z) (result : gmap Z value) (st : state) :
  let rep := reply_to send (list_request g) st in
  fetch_others send (g :: rest) result st =
  match record_other g (api_result rep) result with
  | Ret result' =>
      let run := fetch_others send rest result' (after send (list_request g) st) in
      (fst (fst run), snd (fst run),
       (EvExchange (list_request g) rep :: api_logs rep) ++ snd run)
  | Raise e =>
      (Raise e, after send (list_request g) st,
       EvExchange (list_request g) rep :: api_logs rep)
  end.
Proof.
  cbv zeta. cbn [fetch_others].
  rewrite (mbind_run _ _ _ _ _ _ (api_request_run _ _ st)).
  rewrite list_request_post, mbind_lift.
  destruct (record_other g _ result) as [result'|e]; cbn [fst snd].
  - reflexivity.
  - now rewrite app_nil_r.
Qed.


Lemma fetch_others_returns (groups : list Z) :
  forall (result : gmap Z value) (st : state),
    others_answer send groups st ->
    exists snap st' evs,
      fetch_others send groups result st = (Ret snap, st', evs) /\
      forall k, ~ In k groups -> snap !! k = result !! k.
Proof.
  induction groups as [|g rest IH]; intros result st Hans.
  - exists result, st, []. split; reflexivity.
  - destruct Hans as [Hg Hrest].
    rewrite fetch_others_step. cbv zeta.
    assert (Hrec : exists result',
               record_other g (api_result (reply_to send (list_request g) st)) result = Ret result'
               /\ forall k, k <> g -> result' !! k = result !! k).
    { destruct Hg as [Hf|[l Hl]].
      - rewrite (record_other_failed _ _ _ Hf). eauto.
      - rewrite (record_other_listed _ _ _ _ Hl).
        destruct (truthy l); eexists; split; try reflexivity.
        intros k Hk. now rewrite lookup_insert_ne. }
    destruct Hrec as (result' & -> & Hkeep).
    destruct (IH result' _ Hrest) as (snap & st' & evs & Hrun & Hsnap).
    rewrite Hrun. cbn [fst snd].
    do 3 eexists. split; [reflexivity|].
    intros k Hk. rewrite Hsnap, Hkeep; [reflexivity| |]; intros ?; apply Hk; simpl; auto.
Qed.

(** What a completed run of the loop leaves: the requests made, the keys
    untouched, and for each group either its true list or nothing. *)
Lemma fetch_others_inv (groups : list Z) :
  forall (result snap : gmap Z value) (st st' : state) (evs : list event),
    List.NoDup groups ->
    fetch_others send groups result st = (Ret snap, st', evs) ->
    map fst (exchanges evs) = map list_request groups /\
    (forall k, ~ In k groups -> snap !! k = result !! k) /\
    (forall g, In g groups -> result !! g = None ->
       exists rep, In (list_request g, rep) (exchanges evs) /\
         match snap !! g with
         | Some v => request_listed rep v /\ truthy v = true
         | None => forall l, request_listed rep l -> truthy l = false
         end).
Proof.
  induction groups as [|g rest IH]; intros result snap st st' evs Hnd Hrun.
  - cbn [fetch_others] in Hrun. unfold mret in Hrun.
    injection Hrun as <- <- <-. split; [reflexivity|]. split; [reflexivity|].
    intros g Hg. destruct Hg.
  - rewrite fetch_others_step in Hrun. cbv zeta in Hrun.
    destruct (record_other g _ result) as [result'|e] eqn:Hrec; [|discriminate].
    destruct (fetch_others send rest result' _) as [[r st2] ev2] eqn:Hrest.
    cbn [fst snd] in Hrun. injection Hrun as -> <- <-.
    apply List.NoDup_cons_iff in Hnd as [Hnotin Hnd].
    destruct (IH _ _ _ _ _ Hnd Hrest) as (Hreqs & Hkeep & Hgroups).
    assert (Hkeep' : forall k, k <> g -> result' !! k = result !! k).
    { destruct (record_other_inv _ _ _ _ Hrec) as [[-> _]|(l & -> & _)]; intros k Hk;
        [reflexivity | now rewrite lookup_insert_ne]. }
    split; [|split].
    + cbn [app exchanges map fst]. rewrite exchanges_app, exchanges_api_logs.
      cbn [app]. now rewrite Hreqs.
    + intros k Hk. rewrite Hkeep, Hkeep'; [reflexivity| |]; intros ?; apply Hk; simpl; auto.
    + intros g' [<-|Hin] Hnone.
      * exists (reply_to send (list_request g) st). split; [left; reflexivity|].
        rewrite (Hkeep g Hnotin).
        destruct (record_other_inv _ _ _ _ Hrec) as [[-> Hno]|(l & -> & Hl & Ht)].
        -- now rewrite Hnone.
        -- rewrite lookup_insert_eq. auto.
      * assert (g' <> g) by (intros ->; contradiction).
        destruct (Hgroups g' Hin) as (rep & Hrep & Hsnap).
        { rewrite Hkeep' by assumption. assumption. }
        exists rep. split; [|assumption].
        cbn [app exchanges]. right. rewrite exchanges_app. apply in_or_app. now right.
Qed.


End Running.


(** ** Light commands *)

Lemma light_async_turn_on_run (json_loads : string -> option value) {W : Type}
    (e : entity) (h : Z) (st : state (W := W)) :
  0 <= h <= 255 ->
  light_async_turn_on json_loads e (Some h) st =
  (Ret tt, st,
   [EvLogBrightness (_device_id e) (VInt (trunc_host_to_raw h)); EvRequestRefresh]).
Proof.
  intros Hh. unfold light_async_turn_on.
  rewrite mbind_lift, (brightness_to_percentage_trunc h Hh).
  reflexivity.
Qed.

(** ** Commands and refreshes *)

Lemma record_group_keeps (g : Z) (response : value) (result result' : gmap Z value) :
  record_group g response result = Ret result' ->
  forall k, k <> g -> result' !! k = result !! k.
Proof.
  unfold record_group.
  destruct (has_code_000 response) as [[]|]; simpl; try discriminate.
  - destruct (data_list response (VList [])); simpl; try discriminate.
    intros [= <-] k Hk. now rewrite lookup_insert_ne.
  - intros [= <-]. reflexivity.
Qed.


(** A completed refresh: its five exchanges, and what it kept of each of
    the other groups. *)
Lemma update_data_inv {W : Type} (send : request -> W -> reply * W)
    (st st' : state) (snap : gmap Z value) (evs : list event) :
  update_data send st = (Ret snap, st', evs) ->
  map fst (exchanges evs) =
    map list_request (PRODUCT_GROUP_LIGHT :: PRODUCT_GROUP_FAN :: PRODUCT_GROUP_OTHER) /\
  forall g, In g PRODUCT_GROUP_OTHER ->
    exists rep, In (list_request g, rep) (exchanges evs) /\
      match snap !! g with
      | Some v => request_listed rep v /\ truthy v = true
      | None => forall l, request_listed rep l -> truthy l = false
      end.
Proof.
  unfold update_data, mbind. rewrite !fetch_group_run.
  destruct (record_group PRODUCT_GROUP_LIGHT _ ∅) as [r1|] eqn:H1; [|discriminate].
  rewrite fetch_group_run.
  destruct (record_group PRODUCT_GROUP_FAN _ r1) as [r2|] eqn:H2; [|discriminate].
  destruct (fetch_others send PRODUCT_GROUP_OTHER r2 _) as [[r st3] ev3] eqn:H3.
  intros [= -> <- <-].
  assert (Hnd : List.NoDup PRODUCT_GROUP_OTHER).
  { repeat constructor; simpl; intuition discriminate. }
  destruct (fetch_others_inv send _ _ _ _ _ _ Hnd H3) as (Hreqs & _ & Hgroups).
  split.
  - repeat (cbn [exchanges app map fst];
            rewrite ?exchanges_app, ?exchanges_api_logs, ?map_app).
    now rewrite Hreqs.
  - intros g Hg.
    destruct (Hgroups g Hg) as (rep & Hin & Hsnap).
    { rewrite (record_group_keeps _ _ _ _ H2), (record_group_keeps _ _ _ _ H1).
      - apply lookup_empty.
      - simpl in Hg. unfold PRODUCT_GROUP_LIGHT. intuition lia.
      - simpl in Hg. unfold PRODUCT_GROUP_FAN. intuition lia. }
    exists rep. split; [|assumption].
    repeat (cbn [exchanges app];
            rewrite ?exchanges_app, ?exchanges_api_logs).
    right. right. exact Hin.
Qed.

(** ** The configuration flow *)

(** The user step never reports [invalid_auth]: a login that does not
    succeed, for whatever reason, is reported as [cannot_connect]. *)
Lemma async_step_user_never_invalid_auth {W : Type}
    (send : request -> W -> reply * W) (input : option user_input) (st : state) :
  fst (fst (async_step_user send input st)) <> Ret (ShowForm (Some "invalid_auth")).
Proof.
  destruct input as [data|]; [|discriminate].
  destruct (async_step_user_run send data st) as (st' & evs & ->).
  cbn [fst]. destruct (api_result _); discriminate.
Qed.

(** * The claims *)

(** C1 (as the code has it).  When the packed payload of a device does not
    decode, the light's brightness and the fan's speed percentage are both
    [None]: the handler of the decoding error returns no value, not 0.
    Nothing is raised: both properties are total functions into values. *)
Theorem undecodable_payload_gives_None
    (json_loads : string -> option value) (e : entity) :
  undecodable json_loads e ->
  brightness json_loads e = VNone /\ percentage json_loads e = VNone.
Proof.
  intros H. split.
  - now apply brightness_undecodable.
  - now apply percentage_undecodable.
Qed.

Lemma undecodable_payload_gives_None_witness :
  undecodable sample_loads (sample_device 7 "oops") /\
  brightness sample_loads (sample_device 7 "oops") = VNone /\
  percentage sample_loads (sample_device 7 "oops") = VNone.
Proof.
  split.
  - apply sample_undecodable.
  - apply (undecodable_payload_gives_None sample_loads (sample_device 7 "oops")).
    apply sample_undecodable.
Defined.

(** C1 fails as worded: on the payload [oops], which is not valid JSON,
    neither attribute is 0. *)
Lemma undecodable_payload_is_not_zero :
  undecodable sample_loads (sample_device 7 "oops") /\
  brightness sample_loads (sample_device 7 "oops") <> VInt 0 /\
  percentage sample_loads (sample_device 7 "oops") <> VInt 0.
Proof.
  split; [apply sample_undecodable|].
  split; vm_compute; discriminate.
Qed.

(** C2 (as the code has it).  For a raw fan speed [s] in [0, 840] the
    reported percentage is 0 when [s = 0] and otherwise the quotient of [s]
    by 8.4, truncated to an integer and clamped to [25, 100]; so it lies in
    {0} ∪ [25, 100], and the speeds 0, 420, 840 and 50 report 0, 50, 100
    and 25. *)
Theorem percentage_truncates_and_clamps
    (json_loads : string -> option value) (e : entity)
    (info : list (string * value)) (s : Z) :
  decodes_to json_loads e info ->
  dict_lookup "fanSpeed" info = Some (VInt s) ->
  0 <= s <= 840 ->
  percentage json_loads e = VInt (trunc_fan_percentage s) /\
  (trunc_fan_percentage s = 0 \/ 25 <= trunc_fan_percentage s <= 100) /\
  (s = 0 -> trunc_fan_percentage s = 0) /\
  (s = 420 -> trunc_fan_percentage s = 50) /\
  (s = 840 -> trunc_fan_percentage s = 100) /\
  (s = 50 -> trunc_fan_percentage s = 25).
Proof.
  intros Hdec Hget Hs.
  split; [now apply (percentage_of_fan_speed json_loads e info s)|].
  split; [apply trunc_fan_percentage_range|].
  repeat split; intros ->; reflexivity.
Qed.

Lemma percentage_truncates_and_clamps_witness :
  percentage sample_loads (sample_device 7 (info_doc "fanSpeed" "420")) = VInt 50.
Proof.
  apply (percentage_truncates_and_clamps sample_loads
           (sample_device 7 (info_doc "fanSpeed" "420"))
           [("fanSpeed", VInt 420)] 420).
  - reflexivity.
  - reflexivity.
  - lia.
Defined.

(** C2 fails as worded: the raw speed 215 reports 25, while
    [clamp(round(215 / 8.4), 25, 100)] is 26. *)
Lemma percentage_215_is_not_rounded :
  decodes_to sample_loads (sample_device 7 (info_doc "fanSpeed" "215"))
    [("fanSpeed", VInt 215)] /\
  percentage sample_loads (sample_device 7 (info_doc "fanSpeed" "215")) = VInt 25 /\
  spec_fan_percentage 215 = 26 /\
  percentage sample_loads (sample_device 7 (info_doc "fanSpeed" "215"))
    <> VInt (spec_fan_percentage 215).
Proof.
  split; [reflexivity|].
  split; [vm_compute; reflexivity|].
  split; [reflexivity|].
  vm_compute. discriminate.
Qed.



(** C6 (as the code has it).  The codec truncates: a host brightness [h] in
    [0, 255] is commanded as the integer part of [h * 100 / 255], and a raw
    [lastBright] [r] in [0, 100] is decoded to the integer part of
    [r * 255 / 100], clamped to [0, 255]. *)
Theorem brightness_codec_truncates
    (json_loads : string -> option value) {W : Type} (e : entity)
    (info : list (string * value)) (r h : Z) (st : state (W := W)) :
  decodes_to json_loads e info ->
  dict_lookup "lastBright" info = Some (VInt r) ->
  0 <= r <= 100 ->
  0 <= h <= 255 ->
  light_async_turn_on json_loads e (Some h) st =
    (Ret tt, st, [EvLogBrightness (_device_id e) (VInt (h * 100 / 255)); EvRequestRefresh]) /\
  brightness json_loads e = VInt (clamp (r * 255 / 100) 0 255).
Proof.
  intros Hdec Hget Hr Hh. split.
  - now apply light_async_turn_on_run.
  - now apply (brightness_of_last_bright json_loads e info r).
Qed.

Lemma brightness_codec_truncates_witness :
  light_async_turn_on sample_loads
    (sample_device 3 (info_doc "lastBright" "50")) (Some 127) (start []) =
    (Ret tt, start [], [EvLogBrightness (VInt 3) (VInt 49); EvRequestRefresh]) /\
  brightness sample_loads (sample_device 3 (info_doc "lastBright" "50")) = VInt 127.
Proof.
  apply (brightness_codec_truncates sample_loads
           (sample_device 3 (info_doc "lastBright" "50"))
           [("lastBright", VInt 50)] 50 127 (start [])).
  - reflexivity.
  - reflexivity.
  - lia.
  - lia.
Defined.

(** C6 fails as worded: the host brightness 127 is commanded as 49, while
    [round(127 * 100 / 255)] is 50; the raw brightness 1 is decoded to 2,
    while [clamp(round(1 * 255 / 100), 0, 255)] is 3. *)
Lemma brightness_codec_is_not_rounded :
  (light_async_turn_on sample_loads
     (sample_device 3 (info_doc "lastBright" "1")) (Some 127) (start []) =
     (Ret tt, start [], [EvLogBrightness (VInt 3) (VInt 49); EvRequestRefresh]) /\
   spec_host_to_raw 127 = 50) /\
  (brightness sample_loads (sample_device 3 (info_doc "lastBright" "1")) = VInt 2 /\
   spec_raw_to_host 1 = 3).
Proof. repeat split; vm_compute; reflexivity. Qed.

(** C10.  When the packed payload of a light does not decode, its
    brightness is [None], and reading [is_on] raises [TypeError]: the
    comparison of [None] with 0. *)
Theorem is_on_raises_on_undecodable_payload
    (json_loads : string -> option value) (e : entity) :
  undecodable json_loads e ->
  brightness json_loads e = VNone /\ is_on json_loads e = Raise TypeError.
Proof.
  intros H. unfold is_on.
  rewrite (brightness_undecodable json_loads e H).
  split; reflexivity.
Qed.

Lemma is_on_raises_on_undecodable_payload_witness :
  brightness sample_loads (sample_device 3 "oops") = VNone /\
  is_on sample_loads (sample_device 3 "oops") = Raise TypeError.
Proof.
  apply (is_on_raises_on_undecodable_payload sample_loads (sample_device 3 "oops")).
  apply sample_undecodable.
Defined.


(** C3 (as the code has it).  In a refresh cycle in which the Light
    group's request succeeds and returns the list [l], the Fan group's
    request fails, and each of the other groups' requests fails or returns
    a list, [update_data] raises nothing and returns a snapshot that holds
    [l] under the Light group and has no key for the Fan group. *)
Theorem update_data_survives_fan_failure {W : Type}
    (send : request -> W -> reply * W) (st : state) (l : value) :
  let st1 := after send (list_request PRODUCT_GROUP_LIGHT) st in
  let st2 := after send (list_request PRODUCT_GROUP_FAN) st1 in
  request_listed (reply_to send (list_request PRODUCT_GROUP_LIGHT) st) l ->
  request_failed (reply_to send (list_request PRODUCT_GROUP_FAN) st1) ->
  others_answer send PRODUCT_GROUP_OTHER st2 ->
  exists snap st' evs,
    update_data send st = (Ret snap, st', evs) /\
    snap !! PRODUCT_GROUP_LIGHT = Some l /\
    snap !! PRODUCT_GROUP_FAN = None.
Proof.
  intros st1 st2 Hlight Hfan Hothers.
  destruct (fetch_others_returns send PRODUCT_GROUP_OTHER
              (<[PRODUCT_GROUP_LIGHT := l]> ∅) st2 Hothers)
    as (snap & st' & evs & Hrun & Hkeep).
  exists snap, st'. eexists.
  split.
  - unfold update_data, mbind.
    rewrite fetch_group_run, (record_group_listed _ _ _ _ Hlight).
    rewrite fetch_group_run. fold st1.
    rewrite (record_group_failed _ _ _ Hfan).
    fold st2. rewrite Hrun. reflexivity.
  - split.
    + rewrite Hkeep; [apply lookup_insert_eq|].
      unfold PRODUCT_GROUP_LIGHT, PRODUCT_GROUP_OTHER. simpl. intuition discriminate.
    + rewrite Hkeep.
      * rewrite lookup_insert_ne by discriminate. apply lookup_empty.
      * unfold PRODUCT_GROUP_FAN, PRODUCT_GROUP_OTHER. simpl. intuition discriminate.
Qed.

Lemma update_data_survives_fan_failure_witness :
  exists snap st' evs,
    update_data scripted
      (start [ok_body (VDict [("list", VList [tent_light])]); Refused]) =
      (Ret snap, st', evs) /\
    snap !! PRODUCT_GROUP_LIGHT = Some (VList [tent_light]) /\
    snap !! PRODUCT_GROUP_FAN = None.
Proof.
  apply (update_data_survives_fan_failure scripted
           (start [ok_body (VDict [("list", VList [tent_light])]); Refused])
           (VList [tent_light])).
  - exists [("code", VStr "000"); ("msg", VStr "success");
            ("data", VDict [("list", VList [tent_light])])].
    split; reflexivity.
  - reflexivity.
  - simpl. repeat split; left; reflexivity.
Defined.

(** C3 fails as worded: the Light group's request returns a list, the Fan
    group's request is refused, and group 3 answers with code ["000"] and
    [data] [null]; that reply is neither a failure nor a listing, and
    [update_data] raises [AttributeError] instead of returning a
    snapshot. *)
Lemma update_data_raises_on_null_data_of_other_group :
  let st := start [ok_body (VDict [("list", VList [tent_light])]); Refused;
                   ok_body VNone] in
  request_listed (reply_to scripted (list_request PRODUCT_GROUP_LIGHT) st)
    (VList [tent_light]) /\
  request_failed (reply_to scripted (list_request PRODUCT_GROUP_FAN)
                    (after scripted (list_request PRODUCT_GROUP_LIGHT) st)) /\
  fst (fst (update_data scripted st)) = Raise AttributeError /\
  (forall snap, fst (fst (update_data scripted st)) <> Ret snap).
Proof.
  cbv zeta. split; [|split; [|split]].
  - exists [("code", VStr "000"); ("msg", VStr "success");
            ("data", VDict [("list", VList [tent_light])])].
    split; reflexivity.
  - reflexivity.
  - reflexivity.
  - intros snap H. vm_compute in H. discriminate H.
Qed.

(** A reply with code ["000"] whose [data] is [null] is neither a failure
    nor a listing; on it [update_data] raises [AttributeError]. *)
Example update_data_on_null_data :
  fst (fst (update_data scripted (start [ok_body VNone]))) = Raise AttributeError.
Proof. reflexivity. Qed.



(** C9.  When either of the two [calculate] requests of [set_fan_speed]
    fails, so that [_api_request] returns [None] for it, [set_fan_speed]
    raises [AttributeError] at the logging step, after both requests were
    made, instead of returning a result. *)
Theorem set_fan_speed_raises_on_failed_request {W : Type}
    (send : request -> W -> reply * W) (device_id : value) (q : Z) (st : state) :
  let req1 := calculate_request device_id "cfmCalculation" q in
  let req2 := calculate_request device_id "paCalculation" q in
  request_failed (reply_to send req1 st) \/
  request_failed (reply_to send req2 (after send req1 st)) ->
  fst (fst (set_fan_speed send device_id q st)) = Raise AttributeError /\
  map fst (exchanges (snd (set_fan_speed send device_id q st))) = [req1; req2].
Proof.
  intros req1 req2 Hfail.
  split; [|apply set_fan_speed_requests].
  unfold set_fan_speed.
  rewrite (mbind_run _ _ _ _ _ _ (api_request_run send _ _ st)).
  rewrite (mbind_run _ _ _ _ _ _ (api_request_run send _ _ _)).
  cbn [fst snd]. rewrite mbind_lift.
  change (post_request "h5/product/getCalculateSum/v1"
            (calculate_payload device_id "cfmCalculation" q)) with req1.
  change (post_request "h5/product/getCalculateSum/v1"
            (calculate_payload device_id "paCalculation" q)) with req2.
  unfold request_failed in Hfail.
  destruct (api_result_cases (reply_to send req1 st)) as [E1|[d1 E1]]; rewrite E1.
  - reflexivity.
  - destruct Hfail as [Hf|Hf]; [congruence|].
    simpl py_get. cbv iota. rewrite mbind_lift, Hf. reflexivity.
Qed.

Lemma set_fan_speed_raises_on_failed_request_witness :
  fst (fst (set_fan_speed scripted (VInt 7) 60 (start [ok_body (VInt 120); declined_body])))
    = Raise AttributeError /\
  map fst (exchanges (snd (set_fan_speed scripted (VInt 7) 60
                             (start [ok_body (VInt 120); declined_body])))) =
    [calculate_request (VInt 7) "cfmCalculation" 60;
     calculate_request (VInt 7) "paCalculation" 60].
Proof.
  apply (set_fan_speed_raises_on_failed_request scripted (VInt 7) 60
           (start [ok_body (VInt 120); declined_body])).
  right. reflexivity.
Defined.


(** When its requests succeed, a fan that is turned off logs the speed 25
    and asks for a refresh. *)
Example fan_turn_off_logs_25 :
  snd (fan_async_turn_off scripted (sample_device 7 "{}")
         (start [ok_body (VInt 120); ok_body (VInt 9)])) =
  [EvExchange (calculate_request (VInt 7) "cfmCalculation" 25) (ok_body (VInt 120));
   EvExchange (calculate_request (VInt 7) "paCalculation" 25) (ok_body (VInt 9));
   EvLogFanSpeed (VInt 7) 25 (VInt 120) (VInt 9);
   EvRequestRefresh].
Proof. reflexivity. Qed.


(** C4 (on the failing input).  With declined credentials [login] returns
    [False] and raises nothing, but the user step of the configuration
    flow reports [cannot_connect], the error it also reports when the
    connection is refused; [invalid_auth] is not reported. *)
Theorem declined_login_reports_cannot_connect :
  fst (fst (login scripted (start [declined_body]))) = Ret false /\
  fst (fst (async_step_user scripted (Some sample_input) (start [declined_body])))
    = Ret (ShowForm (Some "cannot_connect")) /\
  fst (fst (async_step_user scripted (Some sample_input) (start [Refused])))
    = Ret (ShowForm (Some "cannot_connect")).
Proof. repeat split. Qed.

(** * Further properties of the client *)

Section MoreRunning.

Context {W : Type}.
Variable send : request -> W -> reply * W.

Lemma api_result_code (rep : reply) (d : list (string * value)) :
  api_result rep = VDict d -> dict_lookup "code" d = Some (VStr "000").
Proof.
  destruct rep as [|[[]|]]; simpl; try discriminate.
  destruct (py_eq_str _ _) eqn:E; [|discriminate].
  intros [= <-]. unfold dict_get in E.
  destruct (dict_lookup "code" d0) as [[]|]; simpl in E; try discriminate.
  apply String.eqb_eq in E. now subst.
Qed.

Lemma api_logs_error (rep : reply) :
  api_result rep = VNone <-> exists what, In (EvLogError what) (api_logs rep).
Proof.
  destruct rep as [|[[]|]]; simpl;
    try (split; [intros _; eexists; left; reflexivity | intros _; reflexivity]).
  destruct (py_eq_str _ _); simpl; split.
  - discriminate.
  - intros [what []].
  - intros _. eexists. left. reflexivity.
  - reflexivity.
Qed.

(** The request that [_api_request] makes, for either method *)
Lemma api_request_run_any (endpoint method : string) (data : value) (st : state) :
  exists req,
    url req = String.append base_url endpoint /\
    http_method req = (if String.eqb method "POST" then "POST" else "GET") /\
    json_body req = (if String.eqb method "POST"
                     then Some (if truthy data then data else VDict [])
                     else None) /\
    _api_request send endpoint method data st =
    (Ret (api_result (reply_to send req st)), after send req st,
     EvExchange req (reply_to send req st) :: api_logs (reply_to send req st)).
Proof.
  unfold _api_request.
  destruct (String.eqb_spec method "POST") as [->|Hm];
    [ exists {| url := String.append base_url endpoint; http_method := "POST";
                json_body := Some (if truthy data then data else VDict []) |}
    | exists {| url := String.append base_url endpoint; http_method := "GET";
                json_body := None |} ];
    (repeat (split; [reflexivity|]));
    unfold reply_to, after, mcatch, mbind, session_json, exchange, mbind;
    cbn [world user_info];
    match goal with |- context [send ?r (world st)] =>
      destruct (send r (world st)) as [rep w] end;
    simpl;
    (destruct rep as [|[j|]]; simpl; try reflexivity);
    (destruct j; simpl; try reflexivity);
    destruct (py_eq_str (dict_get d "code" VNone) "000"); reflexivity.
Qed.

End MoreRunning.

(** X1.  [_api_request] never raises.  Whatever the session does, it makes
    one exchange, returns either [None] or an object whose [code] is
    ["000"], logs an error exactly when it returns [None], and leaves the
    stored profile alone. *)
Theorem api_request_never_raises {W : Type} (send : request -> W -> reply * W)
    (endpoint method : string) (data : value) (st : state) :
  exists v,
    fst (fst (_api_request send endpoint method data st)) = Ret v /\
    (v = VNone \/ exists d, v = VDict d /\ dict_lookup "code" d = Some (VStr "000")) /\
    length (exchanges (snd (_api_request send endpoint method data st))) = 1%nat /\
    (v = VNone <->
     exists what, In (EvLogError what) (snd (_api_request send endpoint method data st))) /\
    user_info (snd (fst (_api_request send endpoint method data st))) = user_info st.
Proof.
  destruct (api_request_run_any send endpoint method data st)
    as (req & _ & _ & _ & ->).
  cbn [fst snd]. eexists. split; [reflexivity|].
  split; [|split; [|split]].
  - destruct (api_result_cases (reply_to send req st)) as [E|[d E]]; [now left|].
    right. exists d. split; [assumption|]. now apply (api_result_code _ _ E).
  - cbn [exchanges length]. now rewrite exchanges_api_logs.
  - rewrite api_logs_error. split.
    + intros [what H]. exists what. now right.
    + intros [what [H|H]]; [discriminate|]. now exists what.
  - reflexivity.
Qed.

(** X2.  [login] never raises and makes one request, a POST of the empty
    object to the profile endpoint.  It returns [True] exactly when the
    reply is an object with code ["000"], and then stores the reply's
    [data] ([None] when absent) as the profile; otherwise it returns
    [False] and the stored profile is unchanged. *)
Theorem login_outcome {W : Type} (send : request -> W -> reply * W) (st : state) :
  let rep := reply_to send login_request st in
  let run := login send st in
  json_body login_request = Some (VDict []) /\
  map fst (exchanges (snd run)) = [login_request] /\
  fst (fst run) = Ret (match api_result rep with VDict _ => true | _ => false end) /\
  user_info (snd (fst run)) =
    match api_result rep with
    | VDict d => dict_get d "data" VNone
    | _ => user_info st
    end.
Proof.
  cbv zeta. split; [reflexivity|].
  unfold login.
  rewrite (mbind_run _ _ _ _ _ _ (api_request_run send _ _ st)).
  fold login_request.
  destruct (api_result_cases (reply_to send login_request st)) as [E|[d E]]; rewrite E.
  - rewrite mbind_lift. cbn. rewrite exchanges_app, exchanges_api_logs. auto.
  - rewrite mbind_lift, (api_result_dict _ _ E), mbind_lift. cbn.
    rewrite exchanges_app, exchanges_api_logs. auto.
Qed.

(** X3.  [get_device_detail] never raises and makes one request, a POST of
    the device id to the detail endpoint.  It returns the [data] of a
    reply with code ["000"] ([None] when absent), and [None] for every
    other reply. *)
Theorem get_device_detail_outcome {W : Type} (send : request -> W -> reply * W)
    (device_id : value) (st : state) :
  let rep := reply_to send (detail_request device_id) st in
  let run := get_device_detail send device_id st in
  json_body (detail_request device_id) = Some (VDict [("deviceId", device_id)]) /\
  map fst (exchanges (snd run)) = [detail_request device_id] /\
  fst (fst run) =
    Ret (match api_result rep with
         | VDict d => dict_get d "data" VNone
         | _ => VNone
         end).
Proof.
  cbv zeta. split; [reflexivity|].
  unfold get_device_detail.
  rewrite (mbind_run _ _ _ _ _ _ (api_request_run send _ _ st)).
  fold (detail_request device_id).
  destruct (api_result_cases (reply_to send (detail_request device_id) st))
    as [E|[d E]]; rewrite E.
  - rewrite mbind_lift. cbn. rewrite exchanges_app, exchanges_api_logs. auto.
  - rewrite mbind_lift, (api_result_dict _ _ E). cbn.
    rewrite exchanges_app, exchanges_api_logs. auto.
Qed.

(** ** Refresh cycles *)

Section MoreCycles.

Context {W : Type}.
Variable send : request -> W -> reply * W.

Lemma record_group_inv (g : Z) (rep : reply) (result result' : gmap Z value) :
  record_group g (api_result rep) result = Ret result' ->
  (request_failed rep /\ result' = result) \/
  (exists l, request_listed rep l /\ result' = <[g := l]> result).
Proof.
  destruct (api_result_cases rep) as [E|[d E]].
  - rewrite E. intros [= <-]. now left.
  - rewrite E. unfold record_group. rewrite (api_result_dict _ _ E). simpl obind.
    destruct (data_list (VDict d) (VList [])) as [l|] eqn:Hl; [|discriminate].
    intros [= <-]. right. exists l. split; [exists d; auto | reflexivity].
Qed.

(** The three stages of a completed refresh *)
Lemma update_data_stages (st st' : state) (snap : gmap Z value) (evs : list event) :
  let rep1 := reply_to send (list_request PRODUCT_GROUP_LIGHT) st in
  let st1 := after send (list_request PRODUCT_GROUP_LIGHT) st in
  let rep2 := reply_to send (list_request PRODUCT_GROUP_FAN) st1 in
  let st2 := after send (list_request PRODUCT_GROUP_FAN) st1 in
  update_data send st = (Ret snap, st', evs) ->
  exists r1 r2 ev3,
    record_group PRODUCT_GROUP_LIGHT (api_result rep1) ∅ = Ret r1 /\
    record_group PRODUCT_GROUP_FAN (api_result rep2) r1 = Ret r2 /\
    fetch_others send PRODUCT_GROUP_OTHER r2 st2 = (Ret snap, st', ev3) /\
    exchanges evs =
      (list_request PRODUCT_GROUP_LIGHT, rep1) ::
      (list_request PRODUCT_GROUP_FAN, rep2) :: exchanges ev3.
Proof.
  cbv zeta. unfold update_data, mbind. rewrite !fetch_group_run.
  destruct (record_group PRODUCT_GROUP_LIGHT _ ∅) as [r1|] eqn:H1; [|discriminate].
  rewrite fetch_group_run.
  destruct (record_group PRODUCT_GROUP_FAN _ r1) as [r2|] eqn:H2; [|discriminate].
  destruct (fetch_others send PRODUCT_GROUP_OTHER r2 _) as [[r st3] ev3] eqn:H3.
  intros [= -> <- <-].
  exists r1, r2, ev3.
  do 3 (split; [first [assumption | reflexivity]|]).
  repeat (cbn [exchanges app]; rewrite ?exchanges_app, ?exchanges_api_logs).
  reflexivity.
Qed.

Lemma product_groups_other_distinct : List.NoDup PRODUCT_GROUP_OTHER.
Proof. repeat constructor; simpl; intuition discriminate. Qed.

Lemma fetch_others_user_info (groups : list Z) :
  forall (result : gmap Z value) (st : state),
    user_info (snd (fst (fetch_others send groups result st))) = user_info st.
Proof.
  induction groups as [|g rest IH]; intros result st; [reflexivity|].
  rewrite fetch_others_step. cbv zeta.
  destruct (record_other g _ result) as [result'|e]; cbn [fst snd]; [|reflexivity].
  now rewrite IH.
Qed.

Lemma fetch_others_all_fail (groups : list Z) :
  forall (result : gmap Z value) (st : state),
    all_fail send groups st ->
    fst (fst (fetch_others send groups result st)) = Ret result.
Proof.
  induction groups as [|g rest IH]; intros result st Hfail; [reflexivity|].
  destruct Hfail as [Hg Hrest].
  rewrite fetch_others_step. cbv zeta.
  rewrite (record_other_failed _ _ _ Hg). cbn [fst snd].
  now apply IH.
Qed.

End MoreCycles.

(** X4.  A refresh that completes has made exactly five requests, one list
    request for each group in the order Light, Fan, 3, 6, 7, and has left
    the stored profile alone. *)
Theorem update_data_requests {W : Type} (send : request -> W -> reply * W)
    (st st' : state) (snap : gmap Z value) (evs : list event) :
  update_data send st = (Ret snap, st', evs) ->
  map fst (exchanges evs) = map list_request [1; 2; 3; 6; 7] /\
  user_info st' = user_info st.
Proof.
  intros Hrun. split.
  - apply (update_data_inv send _ _ _ _ Hrun).
  - destruct (update_data_stages send _ _ _ _ Hrun) as (r1 & r2 & ev3 & _ & _ & H3 & _).
    pose proof (fetch_others_user_info send PRODUCT_GROUP_OTHER r2
                  (after send (list_request PRODUCT_GROUP_FAN)
                     (after send (list_request PRODUCT_GROUP_LIGHT) st))) as Hu.
    rewrite H3 in Hu. exact Hu.
Qed.

Lemma update_data_requests_witness :
  let st := start [ok_body (VDict [("list", VList [tent_light])]); declined_body] in
  map fst (exchanges (snd (update_data scripted st))) = map list_request [1; 2; 3; 6; 7] /\
  user_info (start []) = user_info st.
Proof.
  cbv zeta.
  apply (update_data_requests scripted
           (start [ok_body (VDict [("list", VList [tent_light])]); declined_body])
           (start []) (<[1 := VList [tent_light]]> ∅)).
  vm_compute. reflexivity.
Defined.

(** X5.  The snapshot of a refresh has no key other than the five product
    groups 1, 2, 3, 6 and 7. *)
Theorem update_data_keys {W : Type} (send : request -> W -> reply * W)
    (st st' : state) (snap : gmap Z value) (evs : list event) (k : Z) (v : value) :
  update_data send st = (Ret snap, st', evs) ->
  snap !! k = Some v ->
  In k [1; 2; 3; 6; 7].
Proof.
  intros Hrun Hk.
  destruct (update_data_stages send _ _ _ _ Hrun) as (r1 & r2 & ev3 & H1 & H2 & H3 & _).
  destruct (fetch_others_inv send _ _ _ _ _ _ (product_groups_other_distinct) H3)
    as (_ & Hkeep & _).
  destruct (in_dec Z.eq_dec k [1; 2; 3; 6; 7]) as [Hin|Hout]; [assumption|].
  exfalso.
  rewrite Hkeep in Hk by (intros Hin; apply Hout; simpl in *; intuition).
  rewrite (record_group_keeps _ _ _ _ H2) in Hk
    by (intros ->; apply Hout; simpl; auto).
  rewrite (record_group_keeps _ _ _ _ H1) in Hk
    by (intros ->; apply Hout; simpl; auto).
  rewrite lookup_empty in Hk. discriminate.
Qed.

Lemma update_data_keys_witness :
  In 1 [1; 2; 3; 6; 7].
Proof.
  apply (update_data_keys scripted
           (start [ok_body (VDict [("list", VList [tent_light])]); declined_body])
           (start []) (<[1 := VList [tent_light]]> ∅)
           (snd (update_data scripted
                   (start [ok_body (VDict [("list", VList [tent_light])]); declined_body])))
           1 (VList [tent_light])).
  - vm_compute. reflexivity.
  - vm_compute. reflexivity.
Defined.

(** X6.  In the snapshot of a refresh the Light group and the Fan group are
    keys exactly when their request succeeded, and then they hold the list
    that the request returned, also when that list is empty. *)
Theorem light_and_fan_recorded_when_listed {W : Type}
    (send : request -> W -> reply * W)
    (st st' : state) (snap : gmap Z value) (evs : list event) (g : Z) :
  update_data send st = (Ret snap, st', evs) ->
  In g [PRODUCT_GROUP_LIGHT; PRODUCT_GROUP_FAN] ->
  exists rep,
    In (list_request g, rep) (exchanges evs) /\
    ((request_failed rep /\ snap !! g = None) \/
     (exists l, request_listed rep l /\ snap !! g = Some l)).
Proof.
  intros Hrun Hg.
  destruct (update_data_stages send _ _ _ _ Hrun) as (r1 & r2 & ev3 & H1 & H2 & H3 & Hev).
  destruct (fetch_others_inv send _ _ _ _ _ _ (product_groups_other_distinct) H3)
    as (_ & Hkeep & _).
  rewrite Hev.
  destruct Hg as [<-|[<-|[]]].
  - eexists. split; [left; reflexivity|].
    rewrite Hkeep by (simpl; intuition discriminate).
    rewrite (record_group_keeps _ _ _ _ H2) by discriminate.
    destruct (record_group_inv _ _ _ _ H1) as [[Hf ->]|(l & Hl & ->)].
    + left. split; [assumption | apply lookup_empty].
    + right. exists l. split; [assumption | apply lookup_insert_eq].
  - eexists. split; [right; left; reflexivity|].
    rewrite Hkeep by (simpl; intuition discriminate).
    destruct (record_group_inv _ _ _ _ H2) as [[Hf ->]|(l & Hl & ->)].
    + left. split; [assumption|].
      destruct (record_group_inv _ _ _ _ H1) as [[_ ->]|(l & _ & ->)].
      * apply lookup_empty.
      * rewrite lookup_insert_ne by discriminate. apply lookup_empty.
    + right. exists l. split; [assumption | apply lookup_insert_eq].
Qed.

Lemma light_and_fan_recorded_when_listed_witness :
  let st := start [ok_body (VDict [("list", VList [])]); declined_body] in
  let snap : gmap Z value := <[1 := VList []]> ∅ in
  exists rep,
    In (list_request 1, rep) (exchanges (snd (update_data scripted st))) /\
    ((request_failed rep /\ snap !! 1 = None) \/
     (exists l, request_listed rep l /\ snap !! 1 = Some l)).
Proof.
  cbv zeta.
  apply (light_and_fan_recorded_when_listed scripted
           (start [ok_body (VDict [("list", VList [])]); declined_body])
           (start [])).
  - vm_compute. reflexivity.
  - left. reflexivity.
Defined.

(** X7.  When every request of a cycle fails or returns a list, the
    refresh raises nothing and returns a snapshot. *)
Theorem update_data_returns {W : Type} (send : request -> W -> reply * W) (st : state) :
  others_answer send (PRODUCT_GROUP_LIGHT :: PRODUCT_GROUP_FAN :: PRODUCT_GROUP_OTHER) st ->
  exists snap st' evs, update_data send st = (Ret snap, st', evs).
Proof.
  intros (H1 & H2 & H3).
  unfold update_data, mbind. rewrite fetch_group_run.
  assert (E1 : exists r1, record_group PRODUCT_GROUP_LIGHT
                 (api_result (reply_to send (list_request PRODUCT_GROUP_LIGHT) st)) ∅ = Ret r1).
  { destruct H1 as [Hf|[l Hl]].
    - rewrite (record_group_failed _ _ _ Hf). eauto.
    - rewrite (record_group_listed _ _ _ _ Hl). eauto. }
  destruct E1 as [r1 ->]. rewrite fetch_group_run.
  assert (E2 : exists r2, record_group PRODUCT_GROUP_FAN
                 (api_result (reply_to send (list_request PRODUCT_GROUP_FAN)
                    (after send (list_request PRODUCT_GROUP_LIGHT) st))) r1 = Ret r2).
  { destruct H2 as [Hf|[l Hl]].
    - rewrite (record_group_failed _ _ _ Hf). eauto.
    - rewrite (record_group_listed _ _ _ _ Hl). eauto. }
  destruct E2 as [r2 ->].
  destruct (fetch_others_returns send PRODUCT_GROUP_OTHER r2 _ H3)
    as (snap & st' & evs & -> & _).
  eauto.
Qed.

Lemma update_data_returns_witness :
  exists snap st' evs,
    update_data scripted
      (start [declined_body; ok_body (VDict []); ok_body (VDict [("list", VList [])])])
    = (Ret snap, st', evs).
Proof.
  apply (update_data_returns scripted
           (start [declined_body; ok_body (VDict []); ok_body (VDict [("list", VList [])])])).
  simpl. repeat split.
  - left. reflexivity.
  - right. eexists. eexists. split; reflexivity.
  - right. eexists. eexists. split; reflexivity.
  - left. reflexivity.
  - left. reflexivity.
Defined.

(** X8.  When every request of a cycle fails, the refresh raises nothing
    and returns the empty snapshot. *)
Theorem update_data_all_fail {W : Type} (send : request -> W -> reply * W) (st : state) :
  all_fail send (PRODUCT_GROUP_LIGHT :: PRODUCT_GROUP_FAN :: PRODUCT_GROUP_OTHER) st ->
  fst (fst (update_data send st)) = Ret ∅.
Proof.
  intros (H1 & H2 & H3).
  unfold update_data, mbind.
  rewrite fetch_group_run, (record_group_failed _ _ _ H1).
  rewrite fetch_group_run, (record_group_failed _ _ _ H2).
  pose proof (fetch_others_all_fail send PRODUCT_GROUP_OTHER ∅ _ H3) as Hrun.
  destruct (fetch_others send PRODUCT_GROUP_OTHER ∅ _) as [[r st3] ev3].
  exact Hrun.
Qed.

Lemma update_data_all_fail_witness :
  fst (fst (update_data scripted (start [Refused; declined_body; Answer None]))) = Ret ∅.
Proof.
  apply (update_data_all_fail scripted (start [Refused; declined_body; Answer None])).
  simpl. repeat split.
Defined.

(** ** Decoded attributes on arbitrary payloads *)

Lemma fan_speed_to_percentage_range (fan_speed x : value) :
  fan_speed_to_percentage fan_speed = Ret x ->
  x = VInt 0 \/ exists p, x = VInt p /\ 25 <= p <= 100.
Proof.
  unfold fan_speed_to_percentage.
  destruct (py_eq_int fan_speed 0); [intros [= <-]; now left|].
  destruct (py_truediv_float fan_speed lit_8_4) as [q|]; [|discriminate].
  simpl obind. destruct (int_of_float q) as [n|]; [|discriminate].
  intros [= <-]. right. eexists. split; [reflexivity | lia].
Qed.

Lemma last_bright_to_brightness_range (last_bright x : value) :
  last_bright_to_brightness last_bright = Ret x ->
  exists h, x = VInt h /\ 0 <= h <= 255.
Proof.
  unfold last_bright_to_brightness.
  destruct (py_mul_int last_bright 255) as [p|]; [|discriminate].
  simpl obind. destruct (py_truediv_int p 100) as [q|]; [|discriminate].
  simpl obind. destruct (int_of_float q) as [n|]; [|discriminate].
  intros [= <-]. eexists. split; [reflexivity | lia].
Qed.

(** X9.  Whatever the payload of a fan holds, and whatever [json.loads]
    makes of it, the reported percentage is [None], 0, or an integer from
    25 to 100. *)
Theorem percentage_range (json_loads : string -> option value) (e : entity) :
  percentage json_loads e = VNone \/
  percentage json_loads e = VInt 0 \/
  exists p, percentage json_loads e = VInt p /\ 25 <= p <= 100.
Proof.
  unfold percentage.
  destruct (py_json_loads json_loads (device_info e)) as [info|]; [|now left].
  simpl obind.
  destruct (py_get info "fanSpeed" (VInt 0)) as [fan_speed|]; [|now left].
  simpl obind.
  destruct (fan_speed_to_percentage fan_speed) as [x|] eqn:E; [|now left].
  right. simpl. destruct (fan_speed_to_percentage_range _ _ E) as [->|H]; auto.
Qed.

(** X10.  Whatever the payload of a light holds, its brightness is either
    [None], and then reading [is_on] raises [TypeError], or an integer [h]
    from 0 to 255, and then [is_on] is the truth of [h > 0]. *)
Theorem brightness_range (json_loads : string -> option value) (e : entity) :
  (brightness json_loads e = VNone /\ is_on json_loads e = Raise TypeError) \/
  exists h, brightness json_loads e = VInt h /\ 0 <= h <= 255 /\
            is_on json_loads e = Ret (0 <? h).
Proof.
  unfold is_on, brightness.
  destruct (py_json_loads json_loads (device_info e)) as [info|]; [|now left].
  simpl obind.
  destruct (py_get info "lastBright" (VInt 0)) as [last_bright|]; [|now left].
  simpl obind.
  destruct (last_bright_to_brightness last_bright) as [x|] eqn:E; [|now left].
  right. destruct (last_bright_to_brightness_range _ _ E) as (h & -> & Hh).
  exists h. simpl. repeat split; try lia.
  now rewrite Z.gtb_ltb.
Qed.

(** X11.  When the payload decodes to an object that lacks the key, the
    attribute is 0: a fan without [fanSpeed] reports 0 percent, and a
    light without [lastBright] has brightness 0 and is off.  A device
    record without [deviceInfo] at all is decoded from the document
    [{}], which has neither key. *)
Theorem missing_key_decodes_to_zero
    (json_loads : string -> option value) (e : entity) (info : list (string * value)) :
  decodes_to json_loads e info ->
  (dict_lookup "fanSpeed" info = None -> percentage json_loads e = VInt 0) /\
  (dict_lookup "lastBright" info = None ->
   brightness json_loads e = VInt 0 /\ is_on json_loads e = Ret false).
Proof.
  intros Hdec. split.
  - intros Hmiss. rewrite (percentage_decoded json_loads e info Hdec).
    unfold dict_get. now rewrite Hmiss.
  - intros Hmiss. unfold is_on.
    rewrite (brightness_decoded json_loads e info Hdec).
    unfold dict_get. rewrite Hmiss. split; reflexivity.
Qed.

Lemma missing_key_decodes_to_zero_witness :
  let e := {| _device_id := VInt 3;
              _device_data := [("id", VInt 3); ("deviceName", VStr "Tent")] |} in
  percentage sample_loads e = VInt 0 /\
  brightness sample_loads e = VInt 0 /\ is_on sample_loads e = Ret false.
Proof.
  cbv zeta.
  destruct (missing_key_decodes_to_zero sample_loads
              {| _device_id := VInt 3;
                 _device_data := [("id", VInt 3); ("deviceName", VStr "Tent")] |}
              [] eq_refl) as [Hfan Hlight].
  split; [apply Hfan | apply Hlight]; reflexivity.
Defined.

(** X12.  For a raw brightness [r] from 0 to 100, the light is on exactly
    when [r] is at least 1. *)
Theorem is_on_threshold
    (json_loads : string -> option value) (e : entity)
    (info : list (string * value)) (r : Z) :
  decodes_to json_loads e info ->
  dict_lookup "lastBright" info = Some (VInt r) ->
  0 <= r <= 100 ->
  is_on json_loads e = Ret (1 <=? r).
Proof.
  intros Hdec Hget Hr. unfold is_on.
  rewrite (brightness_of_last_bright json_loads e info r Hdec Hget Hr).
  simpl. f_equal. unfold trunc_raw_to_host, clamp.
  destruct (Z.leb_spec 1 r) as [H|H].
  - apply Z.gtb_lt.
    assert (2 <= r * 255 / 100) by (apply Z.div_le_lower_bound; lia). lia.
  - assert (r = 0) by lia. subst. reflexivity.
Qed.

Lemma is_on_threshold_witness :
  is_on sample_loads (sample_device 3 (info_doc "lastBright" "1")) = Ret (1 <=? 1).
Proof.
  apply (is_on_threshold sample_loads (sample_device 3 (info_doc "lastBright" "1"))
           [("lastBright", VInt 1)] 1).
  - reflexivity.
  - reflexivity.
  - lia.
Defined.

(** X13.  When the stored value is not a number (it is [null], a string, a
    list or an object), the attribute is [None] and nothing is raised:
    so it is for the percentage of a fan with such a [fanSpeed], and for
    the brightness of a light with such a [lastBright]. *)
Theorem non_numeric_value_gives_None
    (json_loads : string -> option value) (e : entity)
    (info : list (string * value)) (v : value) :
  decodes_to json_loads e info ->
  not_a_number v ->
  (dict_lookup "fanSpeed" info = Some v -> percentage json_loads e = VNone) /\
  (dict_lookup "lastBright" info = Some v -> brightness json_loads e = VNone).
Proof.
  intros Hdec Hv. split; intros Hget.
  - rewrite (percentage_decoded json_loads e info Hdec).
    unfold dict_get. rewrite Hget. destruct v; try contradiction; reflexivity.
  - rewrite (brightness_decoded json_loads e info Hdec).
    unfold dict_get. rewrite Hget. destruct v; try contradiction; reflexivity.
Qed.

Lemma non_numeric_value_gives_None_witness :
  let doc := info_doc "fanSpeed" (String.append dq (String.append "420" dq)) in
  let loads := loads_table [(doc, VDict [("fanSpeed", VStr "420")])] in
  percentage loads (sample_device 7 doc) = VNone.
Proof.
  cbv zeta.
  apply (non_numeric_value_gives_None
           (loads_table [(info_doc "fanSpeed" (String.append dq (String.append "420" dq)),
                          VDict [("fanSpeed", VStr "420")])])
           (sample_device 7 (info_doc "fanSpeed" (String.append dq (String.append "420" dq))))
           [("fanSpeed", VStr "420")] (VStr "420")).
  - reflexivity.
  - exact I.
  - reflexivity.
Defined.

(** X14.  When the payload is valid JSON but not an object (a list, a
    number, a string, [null]), both attributes are [None] and nothing is
    raised. *)
Theorem non_object_payload_gives_None
    (json_loads : string -> option value) (e : entity) (j : value) :
  py_json_loads json_loads (device_info e) = Ret j ->
  not_an_object j ->
  percentage json_loads e = VNone /\ brightness json_loads e = VNone.
Proof.
  intros Hdec Hj. unfold percentage, brightness. rewrite Hdec.
  destruct j; try contradiction; split; reflexivity.
Qed.

Lemma non_object_payload_gives_None_witness :
  let loads := loads_table [("[]", VList [])] in
  percentage loads (sample_device 7 "[]") = VNone /\
  brightness loads (sample_device 7 "[]") = VNone.
Proof.
  cbv zeta.
  apply (non_object_payload_gives_None (loads_table [("[]", VList [])])
           (sample_device 7 "[]") (VList [])).
  - reflexivity.
  - exact I.
Defined.

(** ** Commands *)

Section MoreCommands.

Context {W : Type}.
Variable send : request -> W -> reply * W.

Lemma api_logs_listed (rep : reply) (d : list (string * value)) :
  api_result rep = VDict d -> api_logs rep = [].
Proof.
  destruct rep as [|[[]|]]; simpl; try discriminate.
  destruct (py_eq_str _ _); [reflexivity | discriminate].
Qed.

Lemma api_logs_only_errors (rep : reply) (ev : event) :
  In ev (api_logs rep) -> exists what, ev = EvLogError what.
Proof.
  destruct rep as [|[[]|]]; simpl;
    try (intros [<-|[]]; eexists; reflexivity).
  destruct (py_eq_str _ _); simpl; [intros [] | intros [<-|[]]; eexists; reflexivity].
Qed.

(** The run of [set_fan_speed], on the replies to its two requests *)
Lemma set_fan_speed_run (device_id : value) (q : Z) (st : state) :
  let req1 := calculate_request device_id "cfmCalculation" q in
  let req2 := calculate_request device_id "paCalculation" q in
  let rep1 := reply_to send req1 st in
  let rep2 := reply_to send req2 (after send req1 st) in
  set_fan_speed send device_id q st =
  match api_result rep1, api_result rep2 with
  | VDict d1, VDict d2 =>
      (Ret true, after send req2 (after send req1 st),
       [EvExchange req1 rep1; EvExchange req2 rep2;
        EvLogFanSpeed device_id q (dict_get d1 "data" VNone) (dict_get d2 "data" VNone)])
  | _, _ =>
      (Raise AttributeError, after send req2 (after send req1 st),
       (EvExchange req1 rep1 :: api_logs rep1) ++ (EvExchange req2 rep2 :: api_logs rep2))
  end.
Proof.
  cbv zeta. unfold set_fan_speed.
  rewrite (mbind_run _ _ _ _ _ _ (api_request_run send _ _ st)).
  rewrite (mbind_run _ _ _ _ _ _ (api_request_run send _ _ _)).
  cbn [fst snd]. rewrite mbind_lift.
  change (post_request "h5/product/getCalculateSum/v1"
            (calculate_payload device_id "cfmCalculation" q))
    with (calculate_request device_id "cfmCalculation" q).
  change (post_request "h5/product/getCalculateSum/v1"
            (calculate_payload device_id "paCalculation" q))
    with (calculate_request device_id "paCalculation" q).
  set (req1 := calculate_request device_id "cfmCalculation" q).
  set (req2 := calculate_request device_id "paCalculation" q).
  destruct (api_result_cases (reply_to send req1 st)) as [E1|[d1 E1]]; rewrite E1.
  - cbn. now rewrite app_nil_r.
  - destruct (api_result_cases (reply_to send req2 (after send req1 st)))
      as [E2|[d2 E2]]; rewrite E2.
    + cbn. now rewrite app_nil_r.
    + rewrite (api_logs_listed _ _ E1), (api_logs_listed _ _ E2). reflexivity.
Qed.

End MoreCommands.

(** X15.  Turning a fan on with no percentage, or with a percentage of 25
    or less, does exactly what turning it off does. *)
Theorem fan_turn_on_at_floor_is_turn_off {W : Type}
    (send : request -> W -> reply * W) (e : entity) (percentage : option Z) (st : state) :
  (forall p, percentage = Some p -> p <= 25) ->
  fan_async_turn_on send e percentage st = fan_async_turn_off send e st.
Proof.
  intros Hp. destruct percentage as [p|]; [|reflexivity].
  specialize (Hp p eq_refl).
  unfold fan_async_turn_on, fan_async_turn_off, async_set_percentage.
  replace (Z.min (Z.max p 25) 100) with (Z.min (Z.max 25 25) 100) by lia.
  reflexivity.
Qed.

Lemma fan_turn_on_at_floor_is_turn_off_witness :
  fan_async_turn_on scripted (sample_device 7 "{}") (Some 10) (start []) =
  fan_async_turn_off scripted (sample_device 7 "{}") (start []).
Proof.
  apply (fan_turn_on_at_floor_is_turn_off scripted (sample_device 7 "{}") (Some 10) (start [])).
  intros p [= <-]. lia.
Defined.

(** X16.  When both calculate requests of a fan command succeed, the
    command returns, and its whole trace is: the two exchanges, the log
    line with the clamped percentage and the [data] of the two replies,
    and the request for a refresh. *)
Theorem async_set_percentage_success {W : Type}
    (send : request -> W -> reply * W) (e : entity) (percentage : option Z)
    (st : state) (d1 d2 : list (string * value)) :
  let q := clamp (match percentage with None => 0 | Some p => p end) 25 100 in
  let req1 := calculate_request (_device_id e) "cfmCalculation" q in
  let req2 := calculate_request (_device_id e) "paCalculation" q in
  let rep1 := reply_to send req1 st in
  let rep2 := reply_to send req2 (after send req1 st) in
  api_result rep1 = VDict d1 ->
  api_result rep2 = VDict d2 ->
  async_set_percentage send e percentage st =
  (Ret tt, after send req2 (after send req1 st),
   [EvExchange req1 rep1; EvExchange req2 rep2;
    EvLogFanSpeed (_device_id e) q (dict_get d1 "data" VNone) (dict_get d2 "data" VNone);
    EvRequestRefresh]).
Proof.
  cbv zeta. intros E1 E2.
  unfold async_set_percentage, mbind. fold (clamp (match percentage with None => 0 | Some p => p end) 25 100).
  rewrite set_fan_speed_run. cbv zeta. rewrite E1, E2. reflexivity.
Qed.

Lemma async_set_percentage_success_witness :
  async_set_percentage scripted (sample_device 7 "{}") (Some 60)
    (start [ok_body (VInt 120); ok_body (VInt 9)]) =
  (Ret tt, start [],
   [EvExchange (calculate_request (VInt 7) "cfmCalculation" 60) (ok_body (VInt 120));
    EvExchange (calculate_request (VInt 7) "paCalculation" 60) (ok_body (VInt 9));
    EvLogFanSpeed (VInt 7) 60 (VInt 120) (VInt 9);
    EvRequestRefresh]).
Proof.
  apply (async_set_percentage_success scripted (sample_device 7 "{}") (Some 60)
           (start [ok_body (VInt 120); ok_body (VInt 9)])
           [("code", VStr "000"); ("msg", VStr "success"); ("data", VInt 120)]
           [("code", VStr "000"); ("msg", VStr "success"); ("data", VInt 9)]).
  - reflexivity.
  - reflexivity.
Defined.

(** X17.  When either calculate request of a fan command fails, the
    command raises [AttributeError]; it has then logged no speed and has
    not asked for a refresh. *)
Theorem async_set_percentage_failure {W : Type}
    (send : request -> W -> reply * W) (e : entity) (percentage : option Z) (st : state) :
  let q := clamp (match percentage with None => 0 | Some p => p end) 25 100 in
  let req1 := calculate_request (_device_id e) "cfmCalculation" q in
  let req2 := calculate_request (_device_id e) "paCalculation" q in
  let run := async_set_percentage send e percentage st in
  request_failed (reply_to send req1 st) \/
  request_failed (reply_to send req2 (after send req1 st)) ->
  fst (fst run) = Raise AttributeError /\
  ~ In EvRequestRefresh (snd run) /\
  (forall id p cfm pa, ~ In (EvLogFanSpeed id p cfm pa) (snd run)).
Proof.
  cbv zeta. intros Hfail.
  unfold async_set_percentage, mbind.
  fold (clamp (match percentage with None => 0 | Some p => p end) 25 100).
  rewrite set_fan_speed_run. cbv zeta.
  set (q := clamp _ 25 100) in *.
  set (req1 := calculate_request (_device_id e) "cfmCalculation" q) in *.
  set (req2 := calculate_request (_device_id e) "paCalculation" q) in *.
  assert (Hno : forall ev,
             In ev ((EvExchange req1 (reply_to send req1 st) :: api_logs (reply_to send req1 st)) ++
                    (EvExchange req2 (reply_to send req2 (after send req1 st)) ::
                     api_logs (reply_to send req2 (after send req1 st)))) ->
             (exists r rp, ev = EvExchange r rp) \/ (exists what, ev = EvLogError what)).
  { intros ev Hin. apply in_app_or in Hin.
    destruct Hin as [[<-|Hin]|[<-|Hin]]; eauto using api_logs_only_errors. }
  unfold request_failed in Hfail.
  destruct (api_result (reply_to send req1 st)) eqn:E1;
    destruct (api_result (reply_to send req2 (after send req1 st))) eqn:E2;
    try (destruct Hfail; discriminate);
    cbn [fst snd];
    (split; [reflexivity|]);
    (split; [intros Hin | intros id p cfm pa Hin]);
    destruct (Hno _ Hin) as [(r & rp & H)|(what & H)]; discriminate.
Qed.

Lemma async_set_percentage_failure_witness :
  let run := async_set_percentage scripted (sample_device 7 "{}") (Some 60)
               (start [ok_body (VInt 120); Refused]) in
  fst (fst run) = Raise AttributeError /\
  ~ In EvRequestRefresh (snd run) /\
  (forall id p cfm pa, ~ In (EvLogFanSpeed id p cfm pa) (snd run)).
Proof.
  cbv zeta.
  apply (async_set_percentage_failure scripted (sample_device 7 "{}") (Some 60)
           (start [ok_body (VInt 120); Refused])).
  right. reflexivity.
Defined.

(** X18.  Turning a light on with no brightness commands the stored
    [lastBright] as it is, whatever value it is (50 when the decoded
    object has no such key); the value is neither converted nor clamped. *)
Theorem light_turn_on_uses_last_brightness
    (json_loads : string -> option value) {W : Type} (e : entity)
    (info : list (string * value)) (st : state (W := W)) :
  decodes_to json_loads e info ->
  light_async_turn_on json_loads e None st =
  (Ret tt, st,
   [EvLogBrightness (_device_id e) (dict_get info "lastBright" (VInt 50));
    EvRequestRefresh]).
Proof.
  intros Hdec. unfold light_async_turn_on, mbind, last_brightness_percentage.
  unfold decodes_to in Hdec. rewrite Hdec. reflexivity.
Qed.

Lemma light_turn_on_uses_last_brightness_witness :
  let loads := loads_table [(info_doc "lastBright" "250", VDict [("lastBright", VInt 250)])] in
  light_async_turn_on loads (sample_device 3 (info_doc "lastBright" "250")) None (start []) =
  (Ret tt, start [], [EvLogBrightness (VInt 3) (VInt 250); EvRequestRefresh]).
Proof.
  cbv zeta.
  apply (light_turn_on_uses_last_brightness
           (loads_table [(info_doc "lastBright" "250", VDict [("lastBright", VInt 250)])])
           (sample_device 3 (info_doc "lastBright" "250"))
           [("lastBright", VInt 250)] (start [])).
  reflexivity.
Defined.

(** X19.  Turning a light on with no brightness commands 50 when the
    payload does not decode to an object: it is not valid JSON, or it is
    valid JSON of another kind. *)
Theorem light_turn_on_defaults_to_50
    (json_loads : string -> option value) {W : Type} (e : entity) (st : state (W := W)) :
  (forall info, ~ decodes_to json_loads e info) ->
  light_async_turn_on json_loads e None st =
  (Ret tt, st, [EvLogBrightness (_device_id e) (VInt 50); EvRequestRefresh]).
Proof.
  intros Hno. unfold light_async_turn_on, mbind, last_brightness_percentage.
  unfold decodes_to in Hno.
  destruct (py_json_loads json_loads (device_info e)) as [j|x]; [|reflexivity].
  destruct j; try reflexivity.
  exfalso. now apply (Hno d).
Qed.

Lemma light_turn_on_defaults_to_50_witness :
  light_async_turn_on sample_loads (sample_device 3 "oops") None (start []) =
  (Ret tt, start [], [EvLogBrightness (VInt 3) (VInt 50); EvRequestRefresh]).
Proof.
  apply (light_turn_on_defaults_to_50 sample_loads (sample_device 3 "oops") (start [])).
  intros info H. discriminate H.
Defined.

(** X20.  The light's commands never contact the remote service: turning
    a light on, with any brightness or none, and turning it off make no
    exchange and leave the state as it was. *)
Theorem light_commands_make_no_request
    (json_loads : string -> option value) {W : Type} (e : entity)
    (ATTR_BRIGHTNESS : option Z) (st : state (W := W)) :
  exchanges (snd (light_async_turn_on json_loads e ATTR_BRIGHTNESS st)) = [] /\
  snd (fst (light_async_turn_on json_loads e ATTR_BRIGHTNESS st)) = st /\
  exchanges (snd (light_async_turn_off e st)) = [] /\
  snd (fst (light_async_turn_off e st)) = st.
Proof.
  split; [|split; [|split; reflexivity]];
    unfold light_async_turn_on;
    (destruct ATTR_BRIGHTNESS as [b|]; [|reflexivity]);
    rewrite mbind_lift;
    destruct (brightness_to_percentage b); reflexivity.
Qed.

(** X21.  The percentage that a fan reports is sent back unchanged when it
    is commanded, except the reported 0, which is sent as 25. *)
Theorem reported_percentage_is_sent_unchanged
    (json_loads : string -> option value) {W : Type}
    (send : request -> W -> reply * W) (e : entity)
    (info : list (string * value)) (s : Z) (st : state) :
  decodes_to json_loads e info ->
  dict_lookup "fanSpeed" info = Some (VInt s) ->
  0 <= s <= 840 ->
  exists p,
    percentage json_loads e = VInt p /\
    map fst (exchanges (snd (async_set_percentage send e (Some p) st))) =
      [calculate_request (_device_id e) "cfmCalculation" (Z.max p 25);
       calculate_request (_device_id e) "paCalculation" (Z.max p 25)] /\
    (s <> 0 -> Z.max p 25 = p).
Proof.
  intros Hdec Hget Hs.
  exists (trunc_fan_percentage s).
  split; [now apply (percentage_of_fan_speed json_loads e info s)|].
  pose proof (trunc_fan_percentage_range s) as Hr.
  split.
  - rewrite async_set_percentage_requests. cbv zeta. unfold clamp.
    replace (Z.min (Z.max (trunc_fan_percentage s) 25) 100)
      with (Z.max (trunc_fan_percentage s) 25) by lia.
    reflexivity.
  - intros Hne. unfold trunc_fan_percentage, clamp in *.
    destruct (Z.eqb_spec s 0); [contradiction | lia].
Qed.

Lemma reported_percentage_is_sent_unchanged_witness :
  exists p,
    percentage sample_loads (sample_device 7 (info_doc "fanSpeed" "420")) = VInt p /\
    map fst (exchanges (snd (async_set_percentage scripted
                               (sample_device 7 (info_doc "fanSpeed" "420"))
                               (Some p) (start [])))) =
      [calculate_request (VInt 7) "cfmCalculation" (Z.max p 25);
       calculate_request (VInt 7) "paCalculation" (Z.max p 25)] /\
    (420 <> 0 -> Z.max p 25 = p).
Proof.
  apply (reported_percentage_is_sent_unchanged sample_loads scripted
           (sample_device 7 (info_doc "fanSpeed" "420"))
           [("fanSpeed", VInt 420)] 420 (start [])).
  - reflexivity.
  - reflexivity.
  - lia.
Defined.

Lemma trunc_reverse_round_trip (h : Z) :
  0 <= h <= 255 ->
  0 <= trunc_host_to_raw h <= 100 /\
  h - 3 <= trunc_raw_to_host (trunc_host_to_raw h) <= h.
Proof.
  intros Hh.
  pose (check := fun z : Z =>
                   (0 <=? trunc_host_to_raw z) && (trunc_host_to_raw z <=? 100) &&
                   (z - 3 <=? trunc_raw_to_host (trunc_host_to_raw z)) &&
                   (trunc_raw_to_host (trunc_host_to_raw z) <=? z)).
  assert (Hc : check h = true).
  { apply (forallb_seqZ check 0 256); [vm_compute; reflexivity | lia]. }
  unfold check in Hc.
  repeat (apply andb_prop in Hc; destruct Hc as [Hc ?]).
  repeat match goal with H : (_ <=? _) = true |- _ => apply Z.leb_le in H end.
  lia.
Qed.

(** X22.  The other round trip: a host brightness [h] from 0 to 255 is
    commanded as a raw percentage [p] from 0 to 100, and a light whose
    [lastBright] is that [p] has a brightness between [h - 3] and [h]:
    the codec never gains and loses at most three levels. *)
Theorem host_brightness_round_trip
    (json_loads : string -> option value) {W : Type} (e e' : entity)
    (info' : list (string * value)) (h p : Z) (st : state (W := W)) :
  0 <= h <= 255 ->
  snd (light_async_turn_on json_loads e (Some h) st) =
    [EvLogBrightness (_device_id e) (VInt p); EvRequestRefresh] ->
  decodes_to json_loads e' info' ->
  dict_lookup "lastBright" info' = Some (VInt p) ->
  0 <= p <= 100 /\
  exists h', brightness json_loads e' = VInt h' /\ h - 3 <= h' <= h.
Proof.
  intros Hh Hcmd Hdec Hget.
  rewrite (light_async_turn_on_run json_loads e h st Hh) in Hcmd.
  injection Hcmd as <-.
  destruct (trunc_reverse_round_trip h Hh) as [Hp Hrt].
  split; [assumption|].
  exists (trunc_raw_to_host (trunc_host_to_raw h)).
  split; [|assumption].
  now apply (brightness_of_last_bright json_loads e' info' _ Hdec Hget).
Qed.

Lemma host_brightness_round_trip_witness :
  let loads := loads_table [(info_doc "lastBright" "49", VDict [("lastBright", VInt 49)])] in
  0 <= 49 <= 100 /\
  exists h', brightness loads (sample_device 3 (info_doc "lastBright" "49")) = VInt h'
             /\ 127 - 3 <= h' <= 127.
Proof.
  cbv zeta.
  apply (host_brightness_round_trip
           (loads_table [(info_doc "lastBright" "49", VDict [("lastBright", VInt 49)])])
           (sample_device 3 "{}") (sample_device 3 (info_doc "lastBright" "49"))
           [("lastBright", VInt 49)] 127 49 (start [])).
  - lia.
  - reflexivity.
  - reflexivity.
  - reflexivity.
Defined.

(** ** The configuration flow, in full *)

Lemma login_trace {W : Type} (send : request -> W -> reply * W) (st : state) :
  let rep := reply_to send login_request st in
  fst (fst (login send st)) =
    Ret (match api_result rep with VDict _ => true | _ => false end) /\
  snd (login send st) = EvExchange login_request rep :: api_logs rep.
Proof.
  cbv zeta. unfold login.
  rewrite (mbind_run _ _ _ _ _ _ (api_request_run send _ _ st)).
  fold login_request.
  destruct (api_result_cases (reply_to send login_request st)) as [E|[d E]]; rewrite E.
  - rewrite mbind_lift. cbn. now rewrite app_nil_r.
  - rewrite mbind_lift, (api_result_dict _ _ E), mbind_lift. cbn.
    now rewrite app_nil_r.
Qed.

(** X23.  The user step of the configuration flow never raises.  With no
    input it shows the form without an error and makes no request.  With
    input it makes one request, the login, and creates an entry titled
    with the configured name exactly when the reply is an object with
    code ["000"]; for every other reply it shows the form with
    [cannot_connect]. *)
Theorem async_step_user_outcome {W : Type} (send : request -> W -> reply * W)
    (data : user_input) (st : state) :
  let rep := reply_to send login_request st in
  let run := async_step_user send (Some data) st in
  async_step_user send None st = (Ret (ShowForm None), st, []) /\
  fst (fst run) =
    Ret (match api_result rep with
         | VDict _ => CreateEntry (CONF_NAME data)
         | _ => ShowForm (Some "cannot_connect")
         end) /\
  map fst (exchanges (snd run)) = [login_request].
Proof.
  cbv zeta. split; [reflexivity|].
  unfold async_step_user, validate_input, mcatch, mbind.
  cbv beta iota delta [set_user_info].
  match goal with |- context [login send ?s] =>
    pose proof (login_trace send s) as Hl; cbv zeta in Hl;
    change (reply_to send login_request s) with (reply_to send login_request st) in Hl;
    destruct (login send s) as [[r st1] ev1]
  end.
  destruct Hl as [Hr Hev]. cbn [fst snd] in Hr, Hev. subst r ev1.
  destruct (api_result_cases (reply_to send login_request st)) as [E|[d E]]; rewrite E;
    cbn; rewrite ?exchanges_app, ?exchanges_api_logs; split; reflexivity.
Qed.

(** ** The entities of the platform *)



Lemma add_devices_None (g : Z) (l : list value) :
  forall acc,
    add_devices g l acc = None <->
    (g = PRODUCT_GROUP_LIGHT \/ g = PRODUCT_GROUP_FAN) /\
    exists device, In device l /\ entity_init device = None.
Proof.
  induction l as [|device rest IH]; intros acc.
  - split; [discriminate | intros (_ & dv & [] & _)].
  - cbn [add_devices].
    destruct (Z.eqb_spec g PRODUCT_GROUP_LIGHT) as [->|Hl];
      [|destruct (Z.eqb_spec g PRODUCT_GROUP_FAN) as [->|Hf]].
    + destruct (entity_init device) as [e|] eqn:Ei.
      * rewrite IH. split.
        -- intros (Hg & dv & Hin & Hdv). split; [assumption|]. exists dv. simpl. auto.
        -- intros (Hg & dv & [<-|Hin] & Hdv); [congruence|]. split; eauto.
      * split; [|reflexivity]. intros _. split; [now left|]. exists device. simpl. auto.
    + destruct (entity_init device) as [e|] eqn:Ei.
      * rewrite IH. split.
        -- intros (Hg & dv & Hin & Hdv). split; [assumption|]. exists dv. simpl. auto.
        -- intros (Hg & dv & [<-|Hin] & Hdv); [congruence|]. split; eauto.
      * split; [|reflexivity]. intros _. split; [now right|]. exists device. simpl. auto.
    + rewrite IH. split; intros ([?|?] & _); contradiction.
Qed.


Lemma add_groups_None (items : list (Z * value)) :
  forall acc,
    add_groups items acc = None <->
    exists g v,
      In (g, v) items /\
      (py_iter v = None \/
       ((g = PRODUCT_GROUP_LIGHT \/ g = PRODUCT_GROUP_FAN) /\
        exists l device, py_iter v = Some l /\ In device l /\ entity_init device = None)).
Proof.
  induction items as [|[g v] rest IH]; intros acc.
  - split; [discriminate | intros (g & v & [] & _)].
  - cbn [add_groups].
    destruct (py_iter v) as [l|] eqn:Hit.
    + destruct (add_devices g l acc) as [acc'|] eqn:Hadd.
      * rewrite IH. split.
        -- intros (g' & v' & Hin & H). exists g', v'. simpl. auto.
        -- intros (g' & v' & Hin & Hcase).
           destruct Hin as [Heq|Hin]; [|eauto].
           injection Heq as <- <-.
           exfalso. destruct Hcase as [Hnone|(Hg & l' & dv & Hit' & Hdin & Hdv)]; [congruence|].
           assert (l' = l) by congruence. subst l'.
           assert (Hfail : add_devices g l acc = None) by (apply add_devices_None; eauto).
           congruence.
      * split; [|reflexivity]. intros _.
        apply add_devices_None in Hadd. destruct Hadd as (Hg & dv & Hdin & Hdv).
        exists g, v. split; [now left|]. right. split; [assumption|]. eauto.
    + split; [|reflexivity]. intros _. exists g, v. split; [now left | now left].
Qed.



(** X25.  The set-up of the platform fails to build its entities exactly
    when some group's value cannot be iterated, or some device of the
    Light or the Fan group is not an object with the keys [id] and
    [deviceName].  Such a device in another group does no harm. *)
Theorem create_entities_fails_iff (items : list (Z * value)) :
  create_entities items = None <->
  exists g v,
    In (g, v) items /\
    (py_iter v = None \/
     ((g = PRODUCT_GROUP_LIGHT \/ g = PRODUCT_GROUP_FAN) /\
      exists l device, py_iter v = Some l /\ In device l /\ entity_init device = None)).
Proof. unfold create_entities. apply add_groups_None. Qed.
